(** * Canteen ordering of the campus-services backend (app.py)

    A shallow embedding of the canteen part of [app.py]: the two tables
    [canteen_item] and [canteen_order], the request handlers
    [add_menu_item], [place_order] and [order_history], and the effects
    they perform (primary-key lookups, the session commit, Socket.IO
    broadcasts).

    A handler is a finite program over those effects ([Prog]).  Running a
    program to completion against a world gives the behaviour of one
    request served alone ([run]); running the programs of several requests
    one effect at a time gives the behaviour of requests that overlap
    ([exec]). *)

From Stdlib Require Import ZArith List String Bool Lia Floats.
From Stdlib Require Import Sorting.Sorted Sorting.Permutation.
From Stdlib Require Import Ascii NArith.
From ExtLib Require Import Structures.Monad.
Import ListNotations.
Import MonadNotation.

Local Open Scope string_scope.
Local Open Scope list_scope.
Local Open Scope Z_scope.
Local Open Scope monad_scope.

Set Warnings "-register-all".

(** ** JSON values

    Request bodies, response bodies and broadcast payloads are JSON. *)

Inductive JVal : Type :=
| JNull
| JBool (b : bool)
| JInt (z : Z)
| JFloat (f : float)
| JStr (s : string)
| JArr (l : list JVal)
| JObj (fields : list (string * JVal)).

(** [d.get(key)] on the fields of a JSON object. *)
Fixpoint dict_get (fields : list (string * JVal)) (key : string) : option JVal :=
  match fields with
  | [] => None
  | (k, v) :: rest => if String.eqb k key then Some v else dict_get rest key
  end.

(** The fields of a payload; a value that is not an object has none. *)
Definition fields_of (v : JVal) : list (string * JVal) :=
  match v with
  | JObj fields => fields
  | _ => []
  end.

(** What a view function returns: [jsonify(body), status]. *)
Record Response : Type := mkResponse {
  body : JVal;
  status : Z
}.

(** ** Models

    Timestamps ([db.DateTime]) are integers, later is larger. *)

Module CanteenItem.
Record t : Type := mk {
  id : Z;
  name : string;
  price : float;
  available : bool;
  quantity : Z;
  updated_at : Z
}.
End CanteenItem.

Module CanteenOrder.
Record t : Type := mk {
  id : Z;
  student_id : Z;
  item_id : Z;
  quantity : Z;
  status : string;
  created_at : Z
}.
End CanteenOrder.

(** The database: one list of rows per table, in insertion order. *)
Record Db : Type := mkDb {
  canteen_item : list CanteenItem.t;
  canteen_order : list CanteenOrder.t
}.

(** What the outside can observe of a handler, in the order it happens:
    rows inserted at a commit, and broadcasts. *)
Inductive Observed : Type :=
| ItemInserted (it : CanteenItem.t)
| OrderInserted (o : CanteenOrder.t)
| Emitted (event : string) (payload : JVal).

Record World : Type := mkWorld {
  db : Db;
  trace : list Observed
}.

(** ** The database operations the handlers use *)

(** [CanteenItem.query.get(pk)]: the row with that primary key, if any. *)
Definition query_get (rows : list CanteenItem.t) (pk : Z) : option CanteenItem.t :=
  find (fun it => CanteenItem.id it =? pk) rows.

(** The id SQLite gives to a new row of an [INTEGER PRIMARY KEY] table:
    1 in an empty table, else one more than the largest id in use. *)
Definition next_id (ids : list Z) : Z :=
  match ids with
  | [] => 1
  | i :: rest => fold_left Z.max rest i + 1
  end.

(** The UPDATE a flush emits for an item that the session loaded as
    [loaded] and holds as [modified]: only the columns with a net change
    are written, and [updated_at] (onupdate=utcnow) is refreshed when an
    UPDATE is emitted at all. *)
Definition flush_row (loaded modified : CanteenItem.t) (now : Z)
    (row : CanteenItem.t) : CanteenItem.t :=
  let q_changed :=
    negb (CanteenItem.quantity modified =? CanteenItem.quantity loaded) in
  let a_changed :=
    negb (Bool.eqb (CanteenItem.available modified) (CanteenItem.available loaded)) in
  if q_changed || a_changed then
    CanteenItem.mk
      (CanteenItem.id row)
      (CanteenItem.name row)
      (CanteenItem.price row)
      (if a_changed then CanteenItem.available modified else CanteenItem.available row)
      (if q_changed then CanteenItem.quantity modified else CanteenItem.quantity row)
      now
  else row.

Definition flush_item (loaded modified : CanteenItem.t) (now : Z)
    (rows : list CanteenItem.t) : list CanteenItem.t :=
  map (fun row => if CanteenItem.id row =? CanteenItem.id loaded
                  then flush_row loaded modified now row else row) rows.

(** [order_by(CanteenOrder.created_at.desc())], as a stable insertion
    sort: rows with equal timestamps keep their table order. *)
Fixpoint insert_desc (o : CanteenOrder.t) (sorted : list CanteenOrder.t)
    : list CanteenOrder.t :=
  match sorted with
  | [] => [o]
  | p :: rest =>
      if CanteenOrder.created_at p <? CanteenOrder.created_at o then o :: sorted
      else p :: insert_desc o rest
  end.

Definition order_by_created_at_desc (rows : list CanteenOrder.t)
    : list CanteenOrder.t :=
  fold_right insert_desc [] rows.

(** [CanteenOrder.query.filter_by(student_id=sid)
       .order_by(CanteenOrder.created_at.desc()).all()] *)
Definition orders_of (rows : list CanteenOrder.t) (sid : Z) : list CanteenOrder.t :=
  order_by_created_at_desc
    (filter (fun o => CanteenOrder.student_id o =? sid) rows).

(** ** Effects and programs *)

(** The effects of the canteen handlers.  The index is what the effect
    hands back to the handler.

    [CommitOrder] is the commit of [place_order]: the session holds the
    item it loaded, now modified, and one new order.  [CommitItem] is the
    commit of [add_menu_item].  A commit expires the objects of the
    session, so what the handler reads from them afterwards is the row as
    stored: both effects hand the stored rows back. *)
Inductive Eff : Type -> Type :=
| QueryGetItem (pk : Z) : Eff (option CanteenItem.t)
| QueryOrdersOf (sid : Z) : Eff (list CanteenOrder.t)
| CommitOrder (loaded modified : CanteenItem.t)
    (sid iid qty : Z) (st : string) : Eff (CanteenItem.t * CanteenOrder.t)
| CommitItem (nm : string) (pr : float) (qty : Z) (av : bool) : Eff CanteenItem.t
| SocketEmit (event : string) (payload : JVal) : Eff unit.

Inductive Prog (A : Type) : Type :=
| Ret (a : A)
| Vis (X : Type) (e : Eff X) (k : X -> Prog A).

Arguments Ret {A} a.
Arguments Vis {A X} e k.

Fixpoint prog_bind {A B : Type} (p : Prog A) (f : A -> Prog B) : Prog B :=
  match p with
  | Ret a => f a
  | Vis e k => Vis e (fun x => prog_bind (k x) f)
  end.

#[export] Instance Monad_Prog : Monad Prog :=
  {| ret := @Ret; bind := @prog_bind |}.

Definition perform {X : Type} (e : Eff X) : Prog X := Vis e Ret.

(** The order row a commit inserts: id from the table, [created_at] from
    the column default (utcnow at the flush). *)
Definition new_order (orders : list CanteenOrder.t) (sid iid qty : Z)
    (st : string) (now : Z) : CanteenOrder.t :=
  CanteenOrder.mk (next_id (map CanteenOrder.id orders)) sid iid qty st now.

(** The item row a commit inserts. *)
Definition new_item (items : list CanteenItem.t) (nm : string) (pr : float)
    (av : bool) (qty : Z) (now : Z) : CanteenItem.t :=
  CanteenItem.mk (next_id (map CanteenItem.id items)) nm pr av qty now.

(** One effect against the world, at clock reading [now]. *)
Definition handle {X : Type} (e : Eff X) (now : Z) (w : World) : X * World :=
  match e in Eff T return T * World with
  | QueryGetItem pk => (query_get (canteen_item (db w)) pk, w)
  | QueryOrdersOf sid => (orders_of (canteen_order (db w)) sid, w)
  | CommitOrder loaded modified sid iid qty st =>
      let o := new_order (canteen_order (db w)) sid iid qty st now in
      let rows := flush_item loaded modified now (canteen_item (db w)) in
      let stored :=
        match query_get rows (CanteenItem.id loaded) with
        | Some it => it
        | None => modified
        end in
      ((stored, o),
       mkWorld (mkDb rows (canteen_order (db w) ++ [o]))
               (trace w ++ [OrderInserted o]))
  | CommitItem nm pr qty av =>
      let it := new_item (canteen_item (db w)) nm pr av qty now in
      (it,
       mkWorld (mkDb (canteen_item (db w) ++ [it]) (canteen_order (db w)))
               (trace w ++ [ItemInserted it]))
  | SocketEmit event payload =>
      (tt, mkWorld (db w) (trace w ++ [Emitted event payload]))
  end.

(** A request served alone: every effect of the handler, one after the
    other, with nothing in between.  The clock is read once per request. *)
Fixpoint run {A : Type} (p : Prog A) (now : Z) (w : World) : A * World :=
  match p with
  | Ret a => (a, w)
  | Vis e k => let (x, w') := handle e now w in run (k x) now w'
  end.

(** ** Request bodies

    [request.json or {}], for bodies whose fields have the type the
    handler converts them to ([None]: the key is absent). *)

Module OrderRequest.
Record t : Type := mk {
  item_id : option Z;
  quantity : option Z
}.
End OrderRequest.

Module MenuRequest.
Record t : Type := mk {
  name : option string;
  price : option float;
  quantity : option Z;
  available : option bool
}.
End MenuRequest.

(** [data.get(key, default)] *)
Definition get_default {A : Type} (field : option A) (default : A) : A :=
  match field with
  | Some v => v
  | None => default
  end.

(** Python's [not v] on an absent or integer value. *)
Definition not_int (v : option Z) : bool :=
  match v with
  | None => true
  | Some z => z =? 0
  end.

(** Python's [not v] on an absent or string value. *)
Definition not_str (v : option string) : bool :=
  match v with
  | None => true
  | Some s => String.eqb s ""
  end.

Definition msg (text : string) : JVal := JObj [("msg", JStr text)].

(** ** add_menu_item *)

Definition add_menu_item (data : MenuRequest.t) : Prog Response :=
  let name := MenuRequest.name data in
  let price := get_default (MenuRequest.price data) 0%float in
  let quantity := get_default (MenuRequest.quantity data) 0 in
  let available := get_default (MenuRequest.available data) true in
  if not_str name then
    ret (mkResponse (msg "name required") 400)
  else
    item <- perform (CommitItem (get_default name "") price quantity available) ;;
    (* broadcast update *)
    perform (SocketEmit "canteen_update"
               (JObj [("action", JStr "add");
                      ("item",
                       JObj [("id", JInt (CanteenItem.id item));
                             ("name", JStr (CanteenItem.name item));
                             ("price", JFloat (CanteenItem.price item));
                             ("quantity", JInt (CanteenItem.quantity item));
                             ("available", JBool (CanteenItem.available item))])])) ;;
    ret (mkResponse
           (JObj [("msg", JStr "menu item added");
                  ("id", JInt (CanteenItem.id item))])
           201).

(** ** place_order *)

(** The item of the session after [item.quantity -= qty] and
    [if item.quantity <= 0: item.available = False]. *)
Definition reduce_quantity (item : CanteenItem.t) (qty : Z) : CanteenItem.t :=
  let q := CanteenItem.quantity item - qty in
  CanteenItem.mk
    (CanteenItem.id item)
    (CanteenItem.name item)
    (CanteenItem.price item)
    (if q <=? 0 then false else CanteenItem.available item)
    q
    (CanteenItem.updated_at item).

Definition not_available : Response :=
  mkResponse (msg "item not available or insufficient quantity") 400.

Definition place_order (student_id : Z) (data : OrderRequest.t) : Prog Response :=
  let item_id := OrderRequest.item_id data in
  let qty := get_default (OrderRequest.quantity data) 1 in
  if not_int item_id then
    ret (mkResponse (msg "item_id required") 400)
  else
    item <- perform (QueryGetItem (get_default item_id 0)) ;;
    match item with
    | None => ret not_available
    | Some item =>
        if negb (CanteenItem.available item) || (CanteenItem.quantity item <? qty)
        then ret not_available
        else
          '(item', order) <-
            perform (CommitOrder item (reduce_quantity item qty)
                       student_id (CanteenItem.id item) qty "placed") ;;
          perform (SocketEmit "canteen_update"
                     (JObj [("action", JStr "order");
                            ("item_id", JInt (CanteenItem.id item'));
                            ("new_quantity", JInt (CanteenItem.quantity item'))])) ;;
          ret (mkResponse
                 (JObj [("msg", JStr "order placed");
                        ("order_id", JInt (CanteenOrder.id order))])
                 201)
    end.

(** ** order_history *)

Section OrderHistory.

(** [datetime.isoformat()] *)
Variable isoformat : Z -> string.

(** The body of the loop [for o in orders]: one dictionary of [out]. *)
Definition order_summary (o : CanteenOrder.t) (item : option CanteenItem.t) : JVal :=
  JObj [("order_id", JInt (CanteenOrder.id o));
        ("item",
         match item with
         | Some item => JObj [("id", JInt (CanteenItem.id item));
                              ("name", JStr (CanteenItem.name item))]
         | None => JNull
         end);
        ("quantity", JInt (CanteenOrder.quantity o));
        ("status", JStr (CanteenOrder.status o));
        ("created_at", JStr (isoformat (CanteenOrder.created_at o)))].

Fixpoint summaries (orders : list CanteenOrder.t) : Prog (list JVal) :=
  match orders with
  | [] => ret []
  | o :: rest =>
      item <- perform (QueryGetItem (CanteenOrder.item_id o)) ;;
      out <- summaries rest ;;
      ret (order_summary o item :: out)
  end.

Definition order_history (student_id : Z) : Prog Response :=
  orders <- perform (QueryOrdersOf student_id) ;;
  out <- summaries orders ;;
  ret (mkResponse (JArr out) 200).

End OrderHistory.

(** ** Requests one after the other *)

(** One [place_order] call: clock reading, caller, body. *)
Definition Call : Type := Z * Z * OrderRequest.t.

Definition call_data (c : Call) : OrderRequest.t := snd c.

(** Every call served alone, in the order of the list. *)
Fixpoint serve (calls : list Call) (w : World) : list Response * World :=
  match calls with
  | [] => ([], w)
  | (now, sid, data) :: rest =>
      let (r, w1) := run (place_order sid data) now w in
      let (rs, w2) := serve rest w1 in
      (r :: rs, w2)
  end.

(** The quantity the calls reserved of item [pk]: the requested quantity
    of every call for [pk] that was answered 201. *)
Fixpoint reserved (pk : Z) (answered : list (OrderRequest.t * Response)) : Z :=
  match answered with
  | [] => 0
  | (data, r) :: rest =>
      (if (get_default (OrderRequest.item_id data) 0 =? pk) && (status r =? 201)
       then get_default (OrderRequest.quantity data) 1 else 0)
      + reserved pk rest
  end.

(** ** Requests that overlap

    Each request in flight is the rest of its handler.  A schedule names,
    step by step, the request that performs its next effect, with the
    clock reading.  Nothing in [place_order] holds a lock or a row
    between its effects, so every schedule is an execution. *)

Definition step {A : Type} (p : Prog A) (now : Z) (w : World) : Prog A * World :=
  match p with
  | Ret a => (Ret a, w)
  | Vis e k => let (x, w') := handle e now w in (k x, w')
  end.

Fixpoint set_nth {A : Type} (i : nat) (x : A) (l : list A) : list A :=
  match l, i with
  | [], _ => []
  | _ :: rest, O => x :: rest
  | y :: rest, S j => y :: set_nth j x rest
  end.

Fixpoint exec (schedule : list (nat * Z)) (pool : list (Prog Response))
    (w : World) : list (Prog Response) * World :=
  match schedule with
  | [] => (pool, w)
  | (i, now) :: rest =>
      match nth_error pool i with
      | None => exec rest pool w
      | Some p =>
          let (p', w') := step p now w in
          exec rest (set_nth i p' pool) w'
      end
  end.

(** The response of a request that has finished; an unfinished request
    has none, shown as status 0. *)
Definition response_of (p : Prog Response) : Response :=
  match p with
  | Ret r => r
  | Vis _ _ => mkResponse JNull 0
  end.

(** ** The outcomes of place_order *)

(** The world after a call that was admitted for [qty] of [item]. *)
Definition ordered (w : World) (now sid : Z) (item : CanteenItem.t) (qty : Z) : World :=
  let o := new_order (canteen_order (db w)) sid (CanteenItem.id item) qty "placed" now in
  mkWorld
    (mkDb (flush_item item (reduce_quantity item qty) now (canteen_item (db w)))
          (canteen_order (db w) ++ [o]))
    (trace w ++
       [OrderInserted o;
        Emitted "canteen_update"
          (JObj [("action", JStr "order");
                 ("item_id", JInt (CanteenItem.id item));
                 ("new_quantity", JInt (CanteenItem.quantity item - qty))])]).

Definition order_placed (w : World) : Response :=
  mkResponse
    (JObj [("msg", JStr "order placed");
           ("order_id", JInt (next_id (map CanteenOrder.id (canteen_order (db w)))))])
    201.

(** Every call is of one of three kinds. *)
Inductive Outcome (sid : Z) (data : OrderRequest.t) (now : Z) (w : World)
    : Response * World -> Prop :=
| NoItemId :
    not_int (OrderRequest.item_id data) = true ->
    Outcome sid data now w (mkResponse (msg "item_id required") 400, w)
| Refused pk :
    OrderRequest.item_id data = Some pk ->
    pk <> 0 ->
    match query_get (canteen_item (db w)) pk with
    | None => True
    | Some item =>
        CanteenItem.available item = false
        \/ CanteenItem.quantity item < get_default (OrderRequest.quantity data) 1
    end ->
    Outcome sid data now w (not_available, w)
| Placed pk item :
    OrderRequest.item_id data = Some pk ->
    pk <> 0 ->
    query_get (canteen_item (db w)) pk = Some item ->
    CanteenItem.available item = true ->
    get_default (OrderRequest.quantity data) 1 <= CanteenItem.quantity item ->
    Outcome sid data now w
      (order_placed w,
       ordered w now sid item (get_default (OrderRequest.quantity data) 1)).

(** ** Order of a history *)

(** [a] may come before [b] in a history: [a] is not older than [b]. *)
Definition not_older (a b : CanteenOrder.t) : Prop :=
  CanteenOrder.created_at b <= CanteenOrder.created_at a.

(** ** Broadcasts *)

(** The broadcasts of a trace, oldest first. *)
Fixpoint broadcasts (t : list Observed) : list (string * JVal) :=
  match t with
  | [] => []
  | Emitted event payload :: rest => (event, payload) :: broadcasts rest
  | _ :: rest => broadcasts rest
  end.

(** Does the payload have a field that holds a flag, under any key? *)
Definition carries_flag (payload : JVal) : bool :=
  existsb (fun kv => match snd kv with JBool _ => true | _ => false end)
          (fields_of payload).

(** ** Sample data *)

Definition samosa : CanteenItem.t :=
  CanteenItem.mk 1 "samosa" 12.5%float true 5 100.

Definition chai : CanteenItem.t :=
  CanteenItem.mk 2 "chai" 8%float false 0 100.

Definition sample_world : World :=
  mkWorld (mkDb [samosa; chai] []) [].

Definition order_of_3 : OrderRequest.t := OrderRequest.mk (Some 1) (Some 3).

Definition order_of_9 : OrderRequest.t := OrderRequest.mk (Some 1) (Some 9).

Definition order_of_chai : OrderRequest.t := OrderRequest.mk (Some 2) None.

Definition order_of_nothing : OrderRequest.t := OrderRequest.mk (Some 99) (Some 1).

(** Two requests for 3 of item 1 in flight, and a schedule on which both
    have looked the item up before either commits. *)
Definition two_orders : list (Prog Response) :=
  [place_order 7 order_of_3; place_order 8 order_of_3].

Definition both_read_first : list (nat * Z) :=
  [(0%nat, 200); (1%nat, 201); (0%nat, 202); (1%nat, 203); (0%nat, 204); (1%nat, 205)].

(** A menu request that names the item and its price only. *)
Definition menu_of_vada : MenuRequest.t :=
  MenuRequest.mk (Some "vada") (Some 10%float) None None.

(** * The rest of app.py

    The handlers outside the ordering flow work on tables of their own.
    [Site] puts them beside the canteen world; a handler is a function
    from the site before the request to the response and the site after.
    Library calls whose result the handlers only pass on
    ([secure_filename], [strftime], [url_for], [datetime.fromisoformat],
    [create_access_token], [isoformat]) are arguments. *)

(** ** Helpers: allowed_file *)

(** [str.lower()] on one ASCII character. *)
Definition lower_ascii (c : Ascii.ascii) : Ascii.ascii :=
  let n := Ascii.N_of_ascii c in
  if ((65 <=? n) && (n <=? 90))%N then Ascii.ascii_of_N (n + 32) else c.

Fixpoint lower (s : string) : string :=
  match s with
  | EmptyString => EmptyString
  | String c rest => String (lower_ascii c) (lower rest)
  end.

Definition is_dot (c : Ascii.ascii) : bool := Ascii.eqb c "."%char.

(** ["." in s] *)
Fixpoint has_dot (s : string) : bool :=
  match s with
  | EmptyString => false
  | String c rest => is_dot c || has_dot rest
  end.

(** [s.rsplit(".", 1)[1]]: what follows the last dot of [s]; [None] when
    [s] has no dot (the list has no index 1). *)
Fixpoint after_last_dot (s : string) : option string :=
  match s with
  | EmptyString => None
  | String c rest =>
      match after_last_dot rest with
      | Some ext => Some ext
      | None => if is_dot c then Some rest else None
      end
  end.

Definition ALLOWED : list string := ["png"; "jpg"; "jpeg"; "gif"].

Definition allowed_file (filename : string) : bool :=
  has_dot filename
  && match after_last_dot filename with
     | Some ext => existsb (String.eqb (lower ext)) ALLOWED
     | None => false
     end.

(** ** Models outside the canteen *)

Module Student.
Record t : Type := mk {
  id : Z;
  email : string;
  name : string;
  password : string;
  department : option string;
  created_at : Z
}.
End Student.

Module LostItem.
Record t : Type := mk {
  id : Z;
  student_id : Z;
  title : string;
  description : option string;
  image_filename : option string;
  location : option string;
  created_at : Z
}.
End LostItem.

Module EventNotification.
Record t : Type := mk {
  id : Z;
  title : string;
  description : option string;
  department : option string;
  event_time : option Z;
  created_at : Z
}.
End EventNotification.

(** The tables, the names of the files in the upload folder, and the
    canteen world, whose trace also takes the broadcasts of the other
    handlers. *)
Record Site : Type := mkSite {
  student : list Student.t;
  lost_item : list LostItem.t;
  event_notification : list EventNotification.t;
  uploads : list string;
  world : World
}.

(** A nullable text column or optional text field as JSON. *)
Definition opt_str (v : option string) : JVal :=
  match v with
  | Some s => JStr s
  | None => JNull
  end.

(** The elements of a JSON array; a value that is not an array has none. *)
Definition elements (v : JVal) : list JVal :=
  match v with
  | JArr l => l
  | _ => []
  end.

(** [order_by(...)] as a stable insertion sort: [x] goes before the first
    row it is strictly before. *)
Fixpoint insert_by {A : Type} (before : A -> A -> bool) (x : A) (sorted : list A)
    : list A :=
  match sorted with
  | [] => [x]
  | y :: rest =>
      if before x y then x :: sorted else y :: insert_by before x rest
  end.

Definition order_by {A : Type} (before : A -> A -> bool) (rows : list A) : list A :=
  fold_right (insert_by before) [] rows.

(** ** Auth routes *)

Definition student_to_dict (s : Student.t) : JVal :=
  JObj [("id", JInt (Student.id s));
        ("email", JStr (Student.email s));
        ("name", JStr (Student.name s));
        ("department", opt_str (Student.department s))].

Module RegisterRequest.
Record t : Type := mk {
  email : option string;
  name : option string;
  password : option string;
  department : option string
}.
End RegisterRequest.

Module LoginRequest.
Record t : Type := mk {
  email : option string;
  password : option string
}.
End LoginRequest.

(** [Student.query.filter_by(email=email).first()] *)
Definition student_by_email (rows : list Student.t) (email : string)
    : option Student.t :=
  find (fun s => String.eqb (Student.email s) email) rows.

Definition register (data : RegisterRequest.t) (now : Z) (s : Site)
    : Response * Site :=
  let email := RegisterRequest.email data in
  let name := RegisterRequest.name data in
  let password := RegisterRequest.password data in
  let department := RegisterRequest.department data in
  if not_str email || not_str password || not_str name then
    (mkResponse (msg "email, name and password required") 400, s)
  else
    match student_by_email (student s) (get_default email "") with
    | Some _ => (mkResponse (msg "email already registered") 400, s)
    | None =>
        let st := Student.mk (next_id (map Student.id (student s)))
                    (get_default email "") (get_default name "")
                    (get_default password "") department now in
        (mkResponse (JObj [("msg", JStr "registered");
                           ("student", student_to_dict st)]) 201,
         mkSite (student s ++ [st]) (lost_item s) (event_notification s)
                (uploads s) (world s))
    end.

(** [create_access_token] is given the identity and reads the clock. *)
Definition login (create_access_token : Z -> Z -> string)
    (data : LoginRequest.t) (now : Z) (s : Site) : Response :=
  let email := LoginRequest.email data in
  let password := LoginRequest.password data in
  if not_str email || not_str password then
    mkResponse (msg "email and password required") 400
  else
    match student_by_email (student s) (get_default email "") with
    | None => mkResponse (msg "invalid credentials") 401
    | Some st =>
        if negb (String.eqb (Student.password st) (get_default password "")) then
          mkResponse (msg "invalid credentials") 401
        else
          mkResponse (JObj [("access_token",
                             JStr (create_access_token (Student.id st) now));
                            ("student", student_to_dict st)]) 200
    end.

(** ** Lost and found *)

(** [save_image]: the name the file is stored under, and the upload
    folder afterwards.  [file_storage] is the filename of the uploaded
    part, [None] when there is none; a part with an empty filename is
    falsy. *)
Definition save_image (secure_filename : string -> string) (strftime : Z -> string)
    (file_storage : option string) (prefix : string) (now : Z)
    (folder : list string) : option string * list string :=
  if negb (not_str file_storage) && allowed_file (get_default file_storage "") then
    let filename := secure_filename (get_default file_storage "") in
    let timestamp := strftime now in
    let filename :=
      String.append prefix
        (String.append "_" (String.append timestamp (String.append "_" filename))) in
    (Some filename, folder ++ [filename])
  else (None, folder).

Module LostRequest.
Record t : Type := mk {
  title : option string;
  description : option string;
  location : option string;
  image : option string
}.
End LostRequest.

Definition create_lost (secure_filename : string -> string) (strftime : Z -> string)
    (student_id : Z) (form : LostRequest.t) (now : Z) (s : Site)
    : Response * Site :=
  let title := LostRequest.title form in
  let description := LostRequest.description form in
  let location := LostRequest.location form in
  let file := LostRequest.image form in
  if not_str title then
    (mkResponse (msg "title required") 400, s)
  else
    let (filename, folder) :=
      if negb (not_str file)
      then save_image secure_filename strftime file "lost" now (uploads s)
      else (None, uploads s) in
    let li := LostItem.mk (next_id (map LostItem.id (lost_item s)))
                student_id (get_default title "") description filename location now in
    (mkResponse (JObj [("msg", JStr "lost item created");
                       ("id", JInt (LostItem.id li))]) 201,
     mkSite (student s) (lost_item s ++ [li]) (event_notification s)
            folder (world s)).

Definition newer_lost (a b : LostItem.t) : bool :=
  LostItem.created_at b <? LostItem.created_at a.

Definition lost_dict (url_for : string -> string) (isoformat : Z -> string)
    (it : LostItem.t) : JVal :=
  let img_url :=
    if negb (not_str (LostItem.image_filename it))
    then JStr (url_for (get_default (LostItem.image_filename it) ""))
    else JNull in
  JObj [("id", JInt (LostItem.id it));
        ("title", JStr (LostItem.title it));
        ("description", opt_str (LostItem.description it));
        ("location", opt_str (LostItem.location it));
        ("image_url", img_url);
        ("created_at", JStr (isoformat (LostItem.created_at it)))].

Definition list_lost (url_for : string -> string) (isoformat : Z -> string)
    (s : Site) : Response :=
  let items := order_by newer_lost (lost_item s) in
  mkResponse (JArr (map (lost_dict url_for isoformat) items)) 200.

(** ** Canteen: the menu *)

Definition name_before (a b : CanteenItem.t) : bool :=
  String.ltb (CanteenItem.name a) (CanteenItem.name b).

Definition menu_dict (i : CanteenItem.t) : JVal :=
  JObj [("id", JInt (CanteenItem.id i));
        ("name", JStr (CanteenItem.name i));
        ("price", JFloat (CanteenItem.price i));
        ("quantity", JInt (CanteenItem.quantity i));
        ("available", JBool (CanteenItem.available i))].

Definition get_menu (w : World) : Response :=
  let items := order_by name_before (canteen_item (db w)) in
  mkResponse (JArr (map menu_dict items)) 200.

(** ** Events *)

Module EventRequest.
Record t : Type := mk {
  title : option string;
  description : option string;
  department : option string;
  event_time : option string
}.
End EventRequest.

(** [fromisoformat] gives [None] where [datetime.fromisoformat] raises. *)
Definition create_event (fromisoformat : string -> option Z)
    (data : EventRequest.t) (now : Z) (s : Site) : Response * Site :=
  let title := EventRequest.title data in
  let description := EventRequest.description data in
  let department := EventRequest.department data in
  let event_time := EventRequest.event_time data in
  if not_str title then
    (mkResponse (msg "title required") 400, s)
  else
    let et :=
      if negb (not_str event_time)
      then fromisoformat (get_default event_time "")
      else None in
    let ev := EventNotification.mk
                (next_id (map EventNotification.id (event_notification s)))
                (get_default title "") description department et now in
    (mkResponse (JObj [("msg", JStr "event created");
                       ("id", JInt (EventNotification.id ev))]) 201,
     mkSite (student s) (lost_item s) (event_notification s ++ [ev]) (uploads s)
       (mkWorld (db (world s))
          (trace (world s) ++
             [Emitted "event_created"
                (JObj [("id", JInt (EventNotification.id ev));
                       ("title", JStr (EventNotification.title ev));
                       ("department", opt_str (EventNotification.department ev))])]))).

Definition newer_event (a b : EventNotification.t) : bool :=
  EventNotification.created_at b <? EventNotification.created_at a.

(** [q.filter_by(department=dept)] keeps the rows whose department is
    that text; a row without department is never equal to one. *)
Definition in_department (dept : string) (e : EventNotification.t) : bool :=
  match EventNotification.department e with
  | Some d => String.eqb d dept
  | None => false
  end.

Definition event_dict (isoformat : Z -> string) (e : EventNotification.t) : JVal :=
  JObj [("id", JInt (EventNotification.id e));
        ("title", JStr (EventNotification.title e));
        ("description", opt_str (EventNotification.description e));
        ("department", opt_str (EventNotification.department e));
        ("event_time",
         match EventNotification.event_time e with
         | Some t => JStr (isoformat t)
         | None => JNull
         end);
        ("created_at", JStr (isoformat (EventNotification.created_at e)))].

Definition list_events (isoformat : Z -> string) (dept : option string)
    (s : Site) : Response :=
  let q := order_by newer_event (event_notification s) in
  let q := if negb (not_str dept)
           then filter (in_department (get_default dept "")) q
           else q in
  mkResponse (JArr (map (event_dict isoformat) q)) 200.

(** ** Admin helper *)

(** [db.drop_all(); db.create_all()]: every table is empty afterwards.
    The upload folder and what was broadcast are not touched. *)
Definition reset_db (s : Site) : Response * Site :=
  (mkResponse (msg "db reset") 200,
   mkSite [] [] [] (uploads s) (mkWorld (mkDb [] []) (trace (world s)))).

(** ** Canteen handlers on the site *)

(** A canteen handler served alone on the site. *)
Definition on_site (p : Prog Response) (now : Z) (s : Site) : Response * Site :=
  let (r, w) := run p now (world s) in
  (r, mkSite (student s) (lost_item s) (event_notification s) (uploads s) w).

(** ** Ledger sums *)

(** The quantity the ledger records for item [pk]. *)
Fixpoint ordered_quantity (pk : Z) (orders : list CanteenOrder.t) : Z :=
  match orders with
  | [] => 0
  | o :: rest =>
      (if CanteenOrder.item_id o =? pk then CanteenOrder.quantity o else 0)
      + ordered_quantity pk rest
  end.

(** The flag of an item agrees with its quantity. *)
Definition flag_agrees (item : CanteenItem.t) : Prop :=
  CanteenItem.available item = (0 <? CanteenItem.quantity item).

(** * Facts *)

(** ** A sample run *)

Example sample_run :
  run (place_order 7 order_of_3) 200 sample_world
  = (mkResponse (JObj [("msg", JStr "order placed"); ("order_id", JInt 1)]) 201,
     mkWorld
       (mkDb [CanteenItem.mk 1 "samosa" 12.5%float true 2 200; chai]
             [CanteenOrder.mk 1 7 1 3 "placed" 200])
       [OrderInserted (CanteenOrder.mk 1 7 1 3 "placed" 200);
        Emitted "canteen_update"
          (JObj [("action", JStr "order"); ("item_id", JInt 1);
                 ("new_quantity", JInt 2)])]).
Proof. reflexivity. Qed.

(** ** Lookups and flushes *)

Lemma query_get_id rows pk it :
  query_get rows pk = Some it -> CanteenItem.id it = pk.
Proof.
  unfold query_get. intros H.
  apply find_some in H. destruct H as [_ H]. lia.
Qed.

Lemma flush_row_id loaded modified now row :
  CanteenItem.id (flush_row loaded modified now row) = CanteenItem.id row.
Proof.
  unfold flush_row. destruct (_ || _); reflexivity.
Qed.

(** Flushing the row that was loaded leaves it with the quantity and the
    flag of the session's item. *)
Lemma flush_row_loaded loaded modified now :
  CanteenItem.quantity (flush_row loaded modified now loaded)
    = CanteenItem.quantity modified
  /\ CanteenItem.available (flush_row loaded modified now loaded)
    = CanteenItem.available modified.
Proof.
  unfold flush_row.
  destruct (Z.eqb_spec (CanteenItem.quantity modified) (CanteenItem.quantity loaded)) as [Hq | Hq];
    destruct (Bool.eqb (CanteenItem.available modified) (CanteenItem.available loaded)) eqn:Ha;
    cbn; try apply Bool.eqb_prop in Ha; auto.
Qed.

Lemma query_get_flush_same loaded modified now rows pk :
  pk = CanteenItem.id loaded ->
  query_get (flush_item loaded modified now rows) pk
  = option_map (flush_row loaded modified now) (query_get rows pk).
Proof.
  intros ->. unfold query_get, flush_item.
  induction rows as [| row rows IH]; [reflexivity |].
  cbn [map find].
  destruct (Z.eqb_spec (CanteenItem.id row) (CanteenItem.id loaded)) as [E | E].
  - rewrite flush_row_id, E, Z.eqb_refl. reflexivity.
  - destruct (Z.eqb_spec (CanteenItem.id row) (CanteenItem.id loaded)); [contradiction |].
    exact IH.
Qed.

Lemma query_get_flush_other loaded modified now rows pk :
  pk <> CanteenItem.id loaded ->
  query_get (flush_item loaded modified now rows) pk = query_get rows pk.
Proof.
  intros Hne. unfold query_get, flush_item.
  induction rows as [| row rows IH]; [reflexivity |].
  cbn [map find].
  destruct (Z.eqb_spec (CanteenItem.id row) (CanteenItem.id loaded)) as [E | E].
  - rewrite flush_row_id.
    destruct (Z.eqb_spec (CanteenItem.id row) pk); [congruence | exact IH].
  - destruct (Z.eqb_spec (CanteenItem.id row) pk); [reflexivity | exact IH].
Qed.

(** A flush without a net change writes nothing. *)
Lemma flush_item_unchanged loaded modified now rows :
  CanteenItem.quantity modified = CanteenItem.quantity loaded ->
  CanteenItem.available modified = CanteenItem.available loaded ->
  flush_item loaded modified now rows = rows.
Proof.
  intros Hq Ha. unfold flush_item.
  rewrite <- (map_id rows) at 2. apply map_ext. intros row.
  unfold flush_row. rewrite Hq, Ha, Z.eqb_refl, Bool.eqb_reflx. cbn.
  destruct (_ =? _); reflexivity.
Qed.

(** ** Ids *)

Lemma fold_max_ge ids i : i <= fold_left Z.max ids i.
Proof.
  revert i. induction ids as [| j ids IH]; intros i; cbn; [lia |].
  specialize (IH (Z.max i j)). lia.
Qed.

Lemma fold_max_in ids i j : In j ids -> j <= fold_left Z.max ids i.
Proof.
  revert i. induction ids as [| k ids IH]; intros i; cbn; [tauto |].
  intros [-> | Hin].
  - pose proof (fold_max_ge ids (Z.max i j)). lia.
  - apply IH, Hin.
Qed.

(** The id of a new row is in use by no row of the table. *)
Lemma next_id_fresh ids i : In i ids -> i < next_id ids.
Proof.
  destruct ids as [| j ids]; cbn; [tauto |].
  intros [<- | Hin].
  - pose proof (fold_max_ge ids j). lia.
  - pose proof (fold_max_in ids j i Hin). lia.
Qed.

Lemma filter_none {A : Type} (f : A -> bool) (l : list A) :
  (forall x, In x l -> f x = false) -> filter f l = [].
Proof.
  induction l as [| x l IH]; intros H; [reflexivity |].
  cbn. rewrite (H x (or_introl eq_refl)). apply IH.
  intros y Hy. apply H. right. exact Hy.
Qed.

(** ** What one place_order call does *)

Lemma place_order_fail sid data now w pk :
  OrderRequest.item_id data = Some pk ->
  pk <> 0 ->
  match query_get (canteen_item (db w)) pk with
  | None => True
  | Some item =>
      CanteenItem.available item = false
      \/ CanteenItem.quantity item < get_default (OrderRequest.quantity data) 1
  end ->
  run (place_order sid data) now w = (not_available, w).
Proof.
  intros Hid Hpk Hfail. unfold place_order. rewrite Hid. cbn.
  destruct (Z.eqb_spec pk 0); [contradiction |]. cbn.
  destruct (query_get (canteen_item (db w)) pk) as [item |]; [| reflexivity].
  destruct Hfail as [Ha | Hq].
  - rewrite Ha. reflexivity.
  - apply Z.ltb_lt in Hq. rewrite Hq, orb_true_r. reflexivity.
Qed.

Lemma place_order_ok sid data now w pk item :
  OrderRequest.item_id data = Some pk ->
  pk <> 0 ->
  query_get (canteen_item (db w)) pk = Some item ->
  CanteenItem.available item = true ->
  get_default (OrderRequest.quantity data) 1 <= CanteenItem.quantity item ->
  run (place_order sid data) now w
  = (order_placed w,
     ordered w now sid item (get_default (OrderRequest.quantity data) 1)).
Proof.
  intros Hid Hpk Hget Ha Hq. unfold place_order. rewrite Hid. cbn.
  destruct (Z.eqb_spec pk 0); [contradiction |]. cbn.
  rewrite Hget, Ha. cbn.
  destruct (Z.ltb_spec (CanteenItem.quantity item)
              (get_default (OrderRequest.quantity data) 1)); [lia |].
  cbn.
  rewrite (query_get_flush_same _ _ _ _ _ eq_refl).
  pose proof (query_get_id _ _ _ Hget) as Hitem.
  rewrite Hitem, Hget. cbn.
  rewrite flush_row_id.
  destruct (flush_row_loaded item
              (reduce_quantity item (get_default (OrderRequest.quantity data) 1)) now)
    as [-> _].
  unfold order_placed, ordered. cbn. rewrite Hitem, <- app_assoc. reflexivity.
Qed.

Lemma place_order_outcome sid data now w :
  Outcome sid data now w (run (place_order sid data) now w).
Proof.
  destruct (OrderRequest.item_id data) as [pk |] eqn:Hid.
  - destruct (Z.eq_dec pk 0) as [-> | Hpk].
    + unfold place_order. rewrite Hid. cbn. apply NoItemId. rewrite Hid. reflexivity.
    + destruct (query_get (canteen_item (db w)) pk) as [item |] eqn:Hget.
      * destruct (CanteenItem.available item) eqn:Ha.
        -- destruct (Z.lt_ge_cases (CanteenItem.quantity item)
                       (get_default (OrderRequest.quantity data) 1)) as [Hq | Hq].
           ++ rewrite (place_order_fail sid data now w pk Hid Hpk)
                by (rewrite Hget; auto).
              apply (Refused _ _ _ _ pk Hid Hpk). rewrite Hget. auto.
           ++ rewrite (place_order_ok sid data now w pk item Hid Hpk Hget Ha Hq).
              apply (Placed _ _ _ _ pk item); auto.
        -- rewrite (place_order_fail sid data now w pk Hid Hpk)
             by (rewrite Hget; auto).
           apply (Refused _ _ _ _ pk Hid Hpk). rewrite Hget. auto.
      * rewrite (place_order_fail sid data now w pk Hid Hpk)
          by (rewrite Hget; auto).
        apply (Refused _ _ _ _ pk Hid Hpk). rewrite Hget. auto.
  - unfold place_order. rewrite Hid. cbn. apply NoItemId. rewrite Hid. reflexivity.
Qed.

(** The item of an admitted call as stored afterwards: its quantity is
    the old one less the requested one, and its flag says whether any is
    left. *)
Lemma ordered_item w now sid item qty pk :
  query_get (canteen_item (db w)) pk = Some item ->
  CanteenItem.available item = true ->
  qty <= CanteenItem.quantity item ->
  exists item',
    query_get (canteen_item (db (ordered w now sid item qty))) pk = Some item'
    /\ CanteenItem.quantity item' = CanteenItem.quantity item - qty
    /\ CanteenItem.available item' = (0 <? CanteenItem.quantity item').
Proof.
  intros Hget Ha Hq.
  pose proof (query_get_id _ _ _ Hget) as Hid.
  exists (flush_row item (reduce_quantity item qty) now item).
  destruct (flush_row_loaded item (reduce_quantity item qty) now) as [Eq Ea].
  split; [| split].
  - unfold ordered. cbn [db canteen_item].
    rewrite (query_get_flush_same _ _ _ _ _ (eq_sym Hid)), Hget. reflexivity.
  - rewrite Eq. reflexivity.
  - rewrite Ea, Eq. cbn. rewrite Ha.
    destruct (Z.leb_spec (CanteenItem.quantity item - qty) 0);
      destruct (Z.ltb_spec 0 (CanteenItem.quantity item - qty)); auto; lia.
Qed.

(** An item the call was not for is stored as before. *)
Lemma ordered_other w now sid item qty pk :
  pk <> CanteenItem.id item ->
  query_get (canteen_item (db (ordered w now sid item qty))) pk
  = query_get (canteen_item (db w)) pk.
Proof.
  intros Hne. unfold ordered. cbn [db canteen_item].
  apply query_get_flush_other, Hne.
Qed.

(** A call answered 201 is an admitted one: the other outcomes carry
    status 400. *)
Ltac placed_only sid data now w pk item Hid Hget Ha Hq :=
  destruct (place_order_outcome sid data now w)
    as [_ | pk _ _ _ | pk item Hid _ Hget Ha Hq];
  cbn [fst snd status]; try discriminate; intros _.

(** ** Refused calls *)

(** C2.  A call for an item that does not exist, that is not available,
    or that has less than the requested quantity is answered 400 and
    leaves the world as it was: every item with its quantity and flag, the
    orders, and the trace with its broadcasts. *)
Theorem refused_order_changes_nothing sid data now w pk :
  OrderRequest.item_id data = Some pk ->
  (query_get (canteen_item (db w)) pk = None
   \/ exists item,
        query_get (canteen_item (db w)) pk = Some item
        /\ (CanteenItem.available item = false
            \/ CanteenItem.quantity item < get_default (OrderRequest.quantity data) 1)) ->
  status (fst (run (place_order sid data) now w)) = 400
  /\ snd (run (place_order sid data) now w) = w.
Proof.
  intros Hid Hfail.
  destruct (place_order_outcome sid data now w)
    as [_ | pk' _ _ _ | pk' item Hid' _ Hget Ha Hq]; cbn; auto.
  exfalso. rewrite Hid in Hid'. injection Hid' as <-.
  destruct Hfail as [Hnone | (item0 & Hget0 & [Ha0 | Hq0])].
  - congruence.
  - congruence.
  - assert (item0 = item) by congruence. subst. lia.
Qed.

Lemma refused_order_changes_nothing_witness :
  status (fst (run (place_order 7 order_of_9) 200 sample_world)) = 400
  /\ snd (run (place_order 7 order_of_9) 200 sample_world) = sample_world.
Proof.
  apply (refused_order_changes_nothing 7 order_of_9 200 sample_world 1).
  - reflexivity.
  - right. exists samosa. split; [reflexivity |]. right. cbn. lia.
Defined.

(** Any answer other than 201 leaves the world as it was. *)
Lemma unanswered_order_changes_nothing sid data now w :
  status (fst (run (place_order sid data) now w)) <> 201 ->
  snd (run (place_order sid data) now w) = w.
Proof.
  destruct (place_order_outcome sid data now w); cbn; auto. congruence.
Qed.

(** ** Placed orders *)



(** C4.  A call answered 201 adds one order to the ledger, with the
    caller, the item, the requested quantity and status placed, and sends
    one broadcast; the order is inserted first, the broadcast follows. *)
Theorem placed_order_one_entry_then_one_broadcast sid data now w :
  status (fst (run (place_order sid data) now w)) = 201 ->
  exists pk o payload,
    OrderRequest.item_id data = Some pk
    /\ canteen_order (db (snd (run (place_order sid data) now w)))
       = canteen_order (db w) ++ [o]
    /\ CanteenOrder.student_id o = sid
    /\ CanteenOrder.item_id o = pk
    /\ CanteenOrder.quantity o = get_default (OrderRequest.quantity data) 1
    /\ CanteenOrder.status o = "placed"
    /\ trace (snd (run (place_order sid data) now w))
       = trace w ++ [OrderInserted o; Emitted "canteen_update" payload].
Proof.
  placed_only sid data now w pk item Hid Hget Ha Hq. pose proof (query_get_id _ _ _ Hget) as Hpk.
  eexists pk, _, _. cbn. rewrite Hpk. repeat split; auto.
Qed.

Lemma placed_order_one_entry_then_one_broadcast_witness :
  exists pk o payload,
    OrderRequest.item_id order_of_3 = Some pk
    /\ canteen_order (db (snd (run (place_order 7 order_of_3) 200 sample_world)))
       = canteen_order (db sample_world) ++ [o]
    /\ CanteenOrder.student_id o = 7
    /\ CanteenOrder.item_id o = pk
    /\ CanteenOrder.quantity o = get_default (OrderRequest.quantity order_of_3) 1
    /\ CanteenOrder.status o = "placed"
    /\ trace (snd (run (place_order 7 order_of_3) 200 sample_world))
       = trace sample_world ++ [OrderInserted o; Emitted "canteen_update" payload].
Proof.
  apply (placed_order_one_entry_then_one_broadcast 7 order_of_3 200 sample_world).
  reflexivity.
Defined.

(** ** The answer to a refused call *)




(** ** The broadcast of a placed order *)

(** The one broadcast of the sample run has the fields action, item_id
    and new_quantity, and none of them holds a flag. *)
Lemma sample_broadcast_has_no_flag :
  status (fst (run (place_order 7 order_of_3) 200 sample_world)) = 201
  /\ map (fun b => (fst b, map fst (fields_of (snd b)), carries_flag (snd b)))
         (broadcasts (trace (snd (run (place_order 7 order_of_3) 200 sample_world))))
     = [("canteen_update", ["action"; "item_id"; "new_quantity"], false)].
Proof. split; reflexivity. Qed.

Lemma broadcasts_app t1 t2 : broadcasts (t1 ++ t2) = broadcasts t1 ++ broadcasts t2.
Proof.
  induction t1 as [| ev t1 IH]; [reflexivity |].
  destruct ev; cbn; rewrite IH; reflexivity.
Qed.

(** C6, as the code has it.  The broadcast of a call answered 201 carries
    the action, the id of the item and the quantity the item is stored
    with afterwards, and nothing else: no field holds the flag. *)
Theorem placed_order_broadcast sid data now w :
  status (fst (run (place_order sid data) now w)) = 201 ->
  exists pk item',
    OrderRequest.item_id data = Some pk
    /\ query_get (canteen_item (db (snd (run (place_order sid data) now w)))) pk
       = Some item'
    /\ broadcasts (trace (snd (run (place_order sid data) now w)))
       = broadcasts (trace w)
         ++ [("canteen_update",
              JObj [("action", JStr "order");
                    ("item_id", JInt (CanteenItem.id item'));
                    ("new_quantity", JInt (CanteenItem.quantity item'))])]
    /\ carries_flag
         (JObj [("action", JStr "order");
                ("item_id", JInt (CanteenItem.id item'));
                ("new_quantity", JInt (CanteenItem.quantity item'))]) = false.
Proof.
  placed_only sid data now w pk item Hid Hget Ha Hq.
  destruct (ordered_item w now sid item _ pk Hget Ha Hq) as (item' & H1 & H2 & _).
  exists pk, item'. repeat split; auto.
  unfold ordered. cbn [trace]. rewrite broadcasts_app. cbn.
  rewrite (query_get_id _ _ _ H1), (query_get_id _ _ _ Hget), H2. reflexivity.
Qed.

Lemma placed_order_broadcast_witness :
  exists pk item',
    OrderRequest.item_id order_of_3 = Some pk
    /\ query_get
         (canteen_item (db (snd (run (place_order 7 order_of_3) 200 sample_world)))) pk
       = Some item'
    /\ broadcasts (trace (snd (run (place_order 7 order_of_3) 200 sample_world)))
       = broadcasts (trace sample_world)
         ++ [("canteen_update",
              JObj [("action", JStr "order");
                    ("item_id", JInt (CanteenItem.id item'));
                    ("new_quantity", JInt (CanteenItem.quantity item'))])]
    /\ carries_flag
         (JObj [("action", JStr "order");
                ("item_id", JInt (CanteenItem.id item'));
                ("new_quantity", JInt (CanteenItem.quantity item'))]) = false.
Proof.
  apply (placed_order_broadcast 7 order_of_3 200 sample_world). reflexivity.
Defined.

(** ** Three of five *)

(** C7.  With 5 of item 1, available, a call for 3 is answered 201 with
    the id of the new order; the item is left with 2, available; the
    ledger has gained that order, with quantity 3 and status placed, and
    no other entry has its id. *)
Theorem three_of_five sid now w item :
  query_get (canteen_item (db w)) 1 = Some item ->
  CanteenItem.quantity item = 5 ->
  CanteenItem.available item = true ->
  exists o item',
    fst (run (place_order sid order_of_3) now w)
    = mkResponse (JObj [("msg", JStr "order placed");
                        ("order_id", JInt (CanteenOrder.id o))]) 201
    /\ query_get (canteen_item (db (snd (run (place_order sid order_of_3) now w)))) 1
       = Some item'
    /\ CanteenItem.quantity item' = 2
    /\ CanteenItem.available item' = true
    /\ canteen_order (db (snd (run (place_order sid order_of_3) now w)))
       = canteen_order (db w) ++ [o]
    /\ CanteenOrder.quantity o = 3
    /\ CanteenOrder.status o = "placed"
    /\ filter (fun o' => CanteenOrder.id o' =? CanteenOrder.id o)
              (canteen_order (db (snd (run (place_order sid order_of_3) now w))))
       = [o].
Proof.
  intros Hget Hq Ha.
  assert (Hle : get_default (OrderRequest.quantity order_of_3) 1
                <= CanteenItem.quantity item) by (cbn; lia).
  rewrite (place_order_ok sid order_of_3 now w 1 item eq_refl ltac:(lia) Hget Ha Hle).
  destruct (ordered_item w now sid item 3 1 Hget Ha Hle) as (item' & H1 & H2 & H3).
  exists (new_order (canteen_order (db w)) sid (CanteenItem.id item) 3 "placed" now), item'.
  cbn [fst snd].
  split; [reflexivity |]. split; [exact H1 |].
  split; [lia |]. split; [rewrite H3; apply Z.ltb_lt; lia |].
  split; [reflexivity |]. split; [reflexivity |]. split; [reflexivity |].
  cbn [ordered db canteen_order]. rewrite filter_app. cbn [filter new_order CanteenOrder.id].
  rewrite Z.eqb_refl.
  rewrite filter_none; [reflexivity |].
  intros o' Hin.
  pose proof (next_id_fresh (map CanteenOrder.id (canteen_order (db w)))
                (CanteenOrder.id o') (in_map _ _ _ Hin)).
  apply Z.eqb_neq. lia.
Qed.

Lemma three_of_five_witness :
  exists o item',
    fst (run (place_order 7 order_of_3) 200 sample_world)
    = mkResponse (JObj [("msg", JStr "order placed");
                        ("order_id", JInt (CanteenOrder.id o))]) 201
    /\ query_get
         (canteen_item (db (snd (run (place_order 7 order_of_3) 200 sample_world)))) 1
       = Some item'
    /\ CanteenItem.quantity item' = 2
    /\ CanteenItem.available item' = true
    /\ canteen_order (db (snd (run (place_order 7 order_of_3) 200 sample_world)))
       = canteen_order (db sample_world) ++ [o]
    /\ CanteenOrder.quantity o = 3
    /\ CanteenOrder.status o = "placed"
    /\ filter (fun o' => CanteenOrder.id o' =? CanteenOrder.id o)
              (canteen_order (db (snd (run (place_order 7 order_of_3) 200 sample_world))))
       = [o].
Proof.
  apply (three_of_five 7 200 sample_world samosa); reflexivity.
Defined.

(** ** Quantities below one *)



Example order_of_minus_4 :
  map CanteenItem.quantity
      (canteen_item
         (db (snd (run (place_order 7 (OrderRequest.mk (Some 1) (Some (-4))))
                       200 sample_world))))
  = [9; 0].
Proof. reflexivity. Qed.

(** ** New menu items *)

(** C10.  A menu request with a name and neither quantity nor available
    is answered 201 and stores an item with quantity 0 and the flag set:
    the flag of the new item does not agree with its quantity. *)
Theorem new_item_flag_set_at_zero data now w nm :
  MenuRequest.name data = Some nm ->
  nm <> "" ->
  MenuRequest.quantity data = None ->
  MenuRequest.available data = None ->
  exists item,
    status (fst (run (add_menu_item data) now w)) = 201
    /\ canteen_item (db (snd (run (add_menu_item data) now w)))
       = canteen_item (db w) ++ [item]
    /\ CanteenItem.quantity item = 0
    /\ CanteenItem.available item = true
    /\ CanteenItem.available item <> (0 <? CanteenItem.quantity item).
Proof.
  intros Hname Hnm Hq Ha. unfold add_menu_item. rewrite Hname, Hq, Ha. cbn.
  destruct (String.eqb_spec nm ""); [contradiction |]. cbn.
  eexists. repeat split. cbn. discriminate.
Qed.

Lemma new_item_flag_set_at_zero_witness :
  exists item,
    status (fst (run (add_menu_item menu_of_vada) 200 sample_world)) = 201
    /\ canteen_item (db (snd (run (add_menu_item menu_of_vada) 200 sample_world)))
       = canteen_item (db sample_world) ++ [item]
    /\ CanteenItem.quantity item = 0
    /\ CanteenItem.available item = true
    /\ CanteenItem.available item <> (0 <? CanteenItem.quantity item).
Proof.
  apply (new_item_flag_set_at_zero menu_of_vada 200 sample_world "vada").
  - reflexivity.
  - discriminate.
  - reflexivity.
  - reflexivity.
Defined.

(** ** Running programs *)

Lemma run_bind {A B : Type} (p : Prog A) (f : A -> Prog B) now w :
  run (prog_bind p f) now w = run (f (fst (run p now w))) now (snd (run p now w)).
Proof.
  revert w. induction p as [a | X e k IH]; intros w; [reflexivity |].
  cbn. destruct (handle e now w) as [x w']. apply IH.
Qed.

(** ** The history of an account *)

Lemma insert_desc_perm o sorted : Permutation (o :: sorted) (insert_desc o sorted).
Proof.
  induction sorted as [| p rest IH]; cbn; [reflexivity |].
  destruct (CanteenOrder.created_at p <? CanteenOrder.created_at o); [reflexivity |].
  rewrite perm_swap. apply perm_skip, IH.
Qed.

Lemma insert_desc_hd o p rest :
  not_older p o -> HdRel not_older p rest -> HdRel not_older p (insert_desc o rest).
Proof.
  intros Hpo Hhd. destruct rest as [| q rest]; cbn; [constructor; exact Hpo |].
  destruct (CanteenOrder.created_at q <? CanteenOrder.created_at o).
  - constructor. exact Hpo.
  - constructor. inversion Hhd. assumption.
Qed.

Lemma insert_desc_sorted o sorted :
  Sorted not_older sorted -> Sorted not_older (insert_desc o sorted).
Proof.
  induction 1 as [| p rest Hs IH Hhd]; cbn.
  - repeat constructor.
  - destruct (Z.ltb_spec (CanteenOrder.created_at p) (CanteenOrder.created_at o)).
    + constructor; [constructor; assumption |].
      constructor. unfold not_older. lia.
    + constructor; [exact IH |].
      apply insert_desc_hd; [unfold not_older; lia | exact Hhd].
Qed.

Lemma order_by_perm rows : Permutation rows (order_by_created_at_desc rows).
Proof.
  induction rows as [| o rows IH]; cbn; [reflexivity |].
  rewrite <- insert_desc_perm. apply perm_skip, IH.
Qed.

Lemma order_by_sorted rows : StronglySorted not_older (order_by_created_at_desc rows).
Proof.
  apply Sorted_StronglySorted.
  - intros a b c. unfold not_older. lia.
  - induction rows as [| o rows IH]; cbn; [constructor |].
    apply insert_desc_sorted, IH.
Qed.

(** The loop of [order_history] looks every item up and changes nothing. *)
Lemma run_summaries (isoformat : Z -> string) orders now w :
  run (summaries isoformat orders) now w
  = (map (fun o => order_summary isoformat o
                     (query_get (canteen_item (db w)) (CanteenOrder.item_id o)))
         orders,
     w).
Proof.
  induction orders as [| o rest IH]; [reflexivity |].
  cbn. rewrite run_bind, IH. reflexivity.
Qed.

(** C8.  The history of an account is one summary per order of that
    account and of no other, newest first by creation time; a summary
    holds the id of the order, the item it refers to (id and name), the
    quantity, the status and the creation time.  The world is left as it
    was. *)
Theorem order_history_newest_first (isoformat : Z -> string) sid now w :
  exists orders,
    Permutation orders
      (filter (fun o => CanteenOrder.student_id o =? sid) (canteen_order (db w)))
    /\ StronglySorted not_older orders
    /\ run (order_history isoformat sid) now w
       = (mkResponse
            (JArr (map (fun o => order_summary isoformat o
                                   (query_get (canteen_item (db w))
                                              (CanteenOrder.item_id o)))
                       orders))
            200,
          w)
    /\ forall o item,
         let fields := fields_of (order_summary isoformat o item) in
         dict_get fields "order_id" = Some (JInt (CanteenOrder.id o))
         /\ dict_get fields "item"
            = Some match item with
                   | Some item => JObj [("id", JInt (CanteenItem.id item));
                                        ("name", JStr (CanteenItem.name item))]
                   | None => JNull
                   end
         /\ dict_get fields "quantity" = Some (JInt (CanteenOrder.quantity o))
         /\ dict_get fields "status" = Some (JStr (CanteenOrder.status o))
         /\ dict_get fields "created_at"
            = Some (JStr (isoformat (CanteenOrder.created_at o))).
Proof.
  exists (orders_of (canteen_order (db w)) sid).
  split; [| split; [| split]].
  - symmetry. apply order_by_perm.
  - apply order_by_sorted.
  - unfold order_history. cbn. rewrite run_bind, run_summaries. reflexivity.
  - intros o item. cbn. repeat split.
Qed.

Example sample_history :
  fst (run (order_history (fun t => if t =? 200 then "T200" else "T300") 7) 400
         (mkWorld (mkDb [samosa; chai]
                        [CanteenOrder.mk 1 7 1 3 "placed" 200;
                         CanteenOrder.mk 2 8 1 1 "placed" 250;
                         CanteenOrder.mk 3 7 5 1 "placed" 300]) []))
  = mkResponse
      (JArr [JObj [("order_id", JInt 3); ("item", JNull); ("quantity", JInt 1);
                   ("status", JStr "placed"); ("created_at", JStr "T300")];
             JObj [("order_id", JInt 1);
                   ("item", JObj [("id", JInt 1); ("name", JStr "samosa")]);
                   ("quantity", JInt 3);
                   ("status", JStr "placed"); ("created_at", JStr "T200")]])
      200.
Proof. reflexivity. Qed.

(** ** Overlapping requests *)

Lemma set_nth_same {A : Type} (l : list A) i x :
  nth_error l i = Some x -> set_nth i x l = l.
Proof.
  revert i. induction l as [| y l IH]; intros [| i]; cbn; try discriminate.
  - intros [= ->]. reflexivity.
  - intros H. rewrite (IH i H). reflexivity.
Qed.

Lemma nth_error_set_nth {A : Type} (l : list A) i x y :
  nth_error l i = Some y -> nth_error (set_nth i x l) i = Some x.
Proof.
  revert i. induction l as [| z l IH]; intros [| i]; cbn; try discriminate.
  - reflexivity.
  - apply IH.
Qed.

Lemma set_nth_twice {A : Type} (l : list A) i x y :
  set_nth i y (set_nth i x l) = set_nth i y l.
Proof.
  revert i. induction l as [| z l IH]; intros [| i]; cbn; try reflexivity.
  rewrite IH. reflexivity.
Qed.

(** A request served alone is the schedule on which its effects follow
    one another with no other request in between. *)
Lemma run_is_exec_alone (p : Prog Response) now :
  forall pool i w,
    nth_error pool i = Some p ->
    exists n,
      exec (repeat (i, now) n) pool w
      = (set_nth i (Ret (fst (run p now w))) pool, snd (run p now w)).
Proof.
  induction p as [r | X e k IH]; intros pool i w Hnth.
  - exists 0%nat. cbn. rewrite (set_nth_same _ _ _ Hnth). reflexivity.
  - destruct (handle e now w) as [x w'] eqn:He.
    destruct (IH x (set_nth i (k x) pool) i w' (nth_error_set_nth _ _ _ _ Hnth))
      as [n Hn].
    exists (S n). cbn [repeat exec run]. rewrite Hnth. unfold step.
    rewrite He, Hn, set_nth_twice. reflexivity.
Qed.

(** With 5 of item 1, two requests for 3 each that both look the item up
    before either commits are both answered 201: 6 are reserved of 5, the
    ledger holds both orders, and the item is left with 2. *)
Lemma both_orders_placed_of_five :
  CanteenItem.quantity samosa = 5
  /\ map (fun p => status (response_of p))
         (fst (exec both_read_first two_orders sample_world))
     = [201; 201]
  /\ reserved 1 (combine [order_of_3; order_of_3]
                   (map response_of (fst (exec both_read_first two_orders sample_world))))
     = 6
  /\ map CanteenOrder.quantity
         (canteen_order (db (snd (exec both_read_first two_orders sample_world))))
     = [3; 3]
  /\ option_map CanteenItem.quantity
       (query_get (canteen_item (db (snd (exec both_read_first two_orders sample_world)))) 1)
     = Some 2.
Proof. repeat split. Qed.

(** ** Requests one after the other *)

Lemma serve_cons now sid data rest w :
  serve ((now, sid, data) :: rest) w
  = (fst (run (place_order sid data) now w)
       :: fst (serve rest (snd (run (place_order sid data) now w))),
     snd (serve rest (snd (run (place_order sid data) now w)))).
Proof.
  cbn. destruct (run (place_order sid data) now w) as [r w1]. cbn.
  destruct (serve rest w1). reflexivity.
Qed.

(** What the calls reserved of an item is what the item lost, and the
    item never goes below zero. *)
Lemma serve_accounts calls :
  forall w pk item,
    query_get (canteen_item (db w)) pk = Some item ->
    0 <= CanteenItem.quantity item ->
    exists item',
      query_get (canteen_item (db (snd (serve calls w)))) pk = Some item'
      /\ 0 <= CanteenItem.quantity item'
      /\ reserved pk (combine (map call_data calls) (fst (serve calls w)))
         = CanteenItem.quantity item - CanteenItem.quantity item'.
Proof.
  induction calls as [| [[now sid] data] rest IH]; intros w pk item Hget Hq.
  - exists item. cbn. repeat split; auto. lia.
  - rewrite serve_cons. cbn [fst snd map combine call_data reserved].
    destruct (place_order_outcome sid data now w)
      as [Hno | pk' Hid Hpk' _ | pk' item0 Hid Hpk' Hget0 Ha0 Hq0]; cbn [fst snd status].
    + destruct (IH w pk item Hget Hq) as (item' & H1 & H2 & H3).
      exists item'. rewrite andb_false_r. repeat split; auto.
    + destruct (IH w pk item Hget Hq) as (item' & H1 & H2 & H3).
      exists item'. rewrite andb_false_r. repeat split; auto.
    + rewrite Hid. cbn [get_default].
      destruct (Z.eqb_spec pk' pk) as [-> | Hne].
      * assert (item0 = item) by congruence. subst item0.
        destruct (ordered_item w now sid item _ pk Hget Ha0 Hq0)
          as (item1 & G1 & G2 & _).
        destruct (IH _ pk item1 G1 ltac:(lia)) as (item' & H1 & H2 & H3).
        exists item'. cbn. repeat split; auto. lia.
      * pose proof (query_get_id _ _ _ Hget0) as Hid0.
        destruct (IH (ordered w now sid item0
                        (get_default (OrderRequest.quantity data) 1)) pk item)
          as (item' & H1 & H2 & H3); auto.
        { rewrite ordered_other; [exact Hget | congruence]. }
        exists item'. cbn. repeat split; auto.
Qed.

(** C1, as the code has it.  When the calls are served one after the
    other, what they reserve of an item never exceeds what the item had
    at the start. *)
Theorem serve_never_oversells calls w pk item :
  query_get (canteen_item (db w)) pk = Some item ->
  0 <= CanteenItem.quantity item ->
  reserved pk (combine (map call_data calls) (fst (serve calls w)))
  <= CanteenItem.quantity item.
Proof.
  intros Hget Hq.
  destruct (serve_accounts calls w pk item Hget Hq) as (item' & _ & H2 & H3).
  lia.
Qed.

Lemma serve_never_oversells_witness :
  reserved 1
    (combine (map call_data [(200, 7, order_of_3); (201, 8, order_of_3)])
       (fst (serve [(200, 7, order_of_3); (201, 8, order_of_3)] sample_world)))
  <= CanteenItem.quantity samosa.
Proof.
  apply (serve_never_oversells
           [(200, 7, order_of_3); (201, 8, order_of_3)] sample_world 1 samosa).
  - reflexivity.
  - cbn. lia.
Defined.

Example second_of_two_is_refused :
  map status (fst (serve [(200, 7, order_of_3); (201, 8, order_of_3)] sample_world))
  = [201; 400].
Proof. reflexivity. Qed.

(** * More on the canteen *)

(** ** Any number of calls *)

(** What every call does to the world, any number of calls do. *)
Lemma serve_related (R : World -> World -> Prop) :
  (forall w, R w w) ->
  (forall w1 w2 w3, R w1 w2 -> R w2 w3 -> R w1 w3) ->
  (forall now sid data w, R w (snd (run (place_order sid data) now w))) ->
  forall calls w, R w (snd (serve calls w)).
Proof.
  intros Hrefl Htrans Hstep calls.
  induction calls as [| [[now sid] data] rest IH]; intros w.
  - apply Hrefl.
  - rewrite serve_cons. cbn [snd].
    eapply Htrans; [apply Hstep | apply IH].
Qed.

Lemma ordered_quantity_app pk l1 l2 :
  ordered_quantity pk (l1 ++ l2) = ordered_quantity pk l1 + ordered_quantity pk l2.
Proof.
  induction l1 as [| o l1 IH]; cbn; [reflexivity |]. rewrite IH. lia.
Qed.

(** ** One call *)

(** X1.  A call that names no quantity takes one: with an item that is
    available and has at least 1, it is answered 201, the order recorded
    has quantity 1 and the item is left with one less. *)
Theorem order_without_quantity_takes_one sid now w pk item :
  pk <> 0 ->
  query_get (canteen_item (db w)) pk = Some item ->
  CanteenItem.available item = true ->
  1 <= CanteenItem.quantity item ->
  let data := OrderRequest.mk (Some pk) None in
  let w' := snd (run (place_order sid data) now w) in
  status (fst (run (place_order sid data) now w)) = 201
  /\ exists o item',
       canteen_order (db w') = canteen_order (db w) ++ [o]
       /\ CanteenOrder.quantity o = 1
       /\ query_get (canteen_item (db w')) pk = Some item'
       /\ CanteenItem.quantity item' = CanteenItem.quantity item - 1.
Proof.
  intros Hpk Hget Ha Hq data w'. subst w'.
  assert (Hle : get_default (OrderRequest.quantity data) 1
                <= CanteenItem.quantity item) by (cbn; lia).
  rewrite (place_order_ok sid data now w pk item eq_refl Hpk Hget Ha Hle).
  cbn [fst snd status get_default OrderRequest.quantity data].
  split; [reflexivity |].
  destruct (ordered_item w now sid item 1 pk Hget Ha Hq) as (item' & H1 & H2 & _).
  eexists _, item'.
  split; [reflexivity |]. split; [reflexivity |]. split; [exact H1 | exact H2].
Qed.

Lemma order_without_quantity_takes_one_witness :
  let data := OrderRequest.mk (Some 1) None in
  let w' := snd (run (place_order 7 data) 200 sample_world) in
  status (fst (run (place_order 7 data) 200 sample_world)) = 201
  /\ exists o item',
       canteen_order (db w') = canteen_order (db sample_world) ++ [o]
       /\ CanteenOrder.quantity o = 1
       /\ query_get (canteen_item (db w')) 1 = Some item'
       /\ CanteenItem.quantity item' = CanteenItem.quantity samosa - 1.
Proof.
  apply (order_without_quantity_takes_one 7 200 sample_world 1 samosa).
  - lia.
  - reflexivity.
  - reflexivity.
  - cbn. lia.
Defined.

(** X2.  A call leaves every item it does not name as it was, whatever
    the answer. *)
Theorem place_order_touches_one_item sid data now w pk :
  OrderRequest.item_id data <> Some pk ->
  query_get (canteen_item (db (snd (run (place_order sid data) now w)))) pk
  = query_get (canteen_item (db w)) pk.
Proof.
  intros Hne.
  destruct (place_order_outcome sid data now w)
    as [_ | pk' _ _ _ | pk' item Hid _ Hget _ _]; cbn [snd]; try reflexivity.
  apply ordered_other. rewrite (query_get_id _ _ _ Hget). congruence.
Qed.

Lemma place_order_touches_one_item_witness :
  query_get (canteen_item (db (snd (run (place_order 7 order_of_3) 200 sample_world)))) 2
  = query_get (canteen_item (db sample_world)) 2.
Proof.
  apply (place_order_touches_one_item 7 order_of_3 200 sample_world 2).
  discriminate.
Defined.

(** X3.  A call for all that an available item has is answered 201 and
    closes the item: quantity 0, flag false. *)
Theorem order_of_all_closes_item sid now w pk item :
  pk <> 0 ->
  query_get (canteen_item (db w)) pk = Some item ->
  CanteenItem.available item = true ->
  let data := OrderRequest.mk (Some pk) (Some (CanteenItem.quantity item)) in
  status (fst (run (place_order sid data) now w)) = 201
  /\ exists item',
       query_get (canteen_item (db (snd (run (place_order sid data) now w)))) pk
       = Some item'
       /\ CanteenItem.quantity item' = 0
       /\ CanteenItem.available item' = false.
Proof.
  intros Hpk Hget Ha data.
  assert (Hle : get_default (OrderRequest.quantity data) 1
                <= CanteenItem.quantity item) by (cbn; lia).
  rewrite (place_order_ok sid data now w pk item eq_refl Hpk Hget Ha Hle).
  cbn [fst snd status get_default OrderRequest.quantity data].
  split; [reflexivity |].
  destruct (ordered_item w now sid item _ pk Hget Ha (Z.le_refl _))
    as (item' & H1 & H2 & H3).
  exists item'. split; [exact H1 |].
  assert (CanteenItem.quantity item' = 0) as H0 by lia.
  split; [exact H0 |]. rewrite H3, H0. reflexivity.
Qed.

Lemma order_of_all_closes_item_witness :
  let data := OrderRequest.mk (Some 1) (Some (CanteenItem.quantity samosa)) in
  status (fst (run (place_order 7 data) 200 sample_world)) = 201
  /\ exists item',
       query_get (canteen_item (db (snd (run (place_order 7 data) 200 sample_world)))) 1
       = Some item'
       /\ CanteenItem.quantity item' = 0
       /\ CanteenItem.available item' = false.
Proof.
  apply (order_of_all_closes_item 7 200 sample_world 1 samosa).
  - lia.
  - reflexivity.
  - reflexivity.
Defined.

(** X4.  Nothing in place_order opens an item again: once the flag of an
    item is false, any number of calls leave the item as it is, and every
    call that names it is answered 400. *)
Theorem closed_item_stays_closed calls :
  forall w pk item,
    query_get (canteen_item (db w)) pk = Some item ->
    CanteenItem.available item = false ->
    query_get (canteen_item (db (snd (serve calls w)))) pk = Some item
    /\ Forall (fun answered =>
                 OrderRequest.item_id (fst answered) = Some pk ->
                 status (snd answered) = 400)
              (combine (map call_data calls) (fst (serve calls w))).
Proof.
  induction calls as [| [[now sid] data] rest IH]; intros w pk item Hget Ha.
  - cbn. split; [exact Hget | constructor].
  - rewrite serve_cons. cbn [fst snd map combine call_data].
    destruct (place_order_outcome sid data now w)
      as [_ | pk' _ _ _ | pk' item0 Hid _ Hget0 Ha0 _]; cbn [fst snd].
    + destruct (IH w pk item Hget Ha) as [H1 H2]. split; [exact H1 |].
      constructor; [reflexivity | exact H2].
    + destruct (IH w pk item Hget Ha) as [H1 H2]. split; [exact H1 |].
      constructor; [reflexivity | exact H2].
    + assert (pk <> CanteenItem.id item0) as Hne.
      { rewrite (query_get_id _ _ _ Hget0). intros ->. congruence. }
      destruct (IH (ordered w now sid item0
                      (get_default (OrderRequest.quantity data) 1)) pk item)
        as [H1 H2]; auto.
      { rewrite ordered_other; assumption. }
      split; [exact H1 |]. constructor; [| exact H2].
      cbn. intros Hpk. rewrite (query_get_id _ _ _ Hget0) in Hne. congruence.
Qed.

Lemma closed_item_stays_closed_witness :
  query_get
    (canteen_item
       (db (snd (serve [(200, 7, order_of_chai); (201, 8, order_of_3)] sample_world)))) 2
  = Some chai
  /\ Forall (fun answered =>
               OrderRequest.item_id (fst answered) = Some 2 ->
               status (snd answered) = 400)
            (combine (map call_data [(200, 7, order_of_chai); (201, 8, order_of_3)])
               (fst (serve [(200, 7, order_of_chai); (201, 8, order_of_3)] sample_world))).
Proof.
  apply (closed_item_stays_closed
           [(200, 7, order_of_chai); (201, 8, order_of_3)] sample_world 2 chai);
    reflexivity.
Defined.

(** ** What calls keep *)

Lemma place_order_keeps_flags now sid data w :
  (forall pk item,
     query_get (canteen_item (db w)) pk = Some item -> flag_agrees item) ->
  forall pk item,
    query_get (canteen_item (db (snd (run (place_order sid data) now w)))) pk
    = Some item ->
    flag_agrees item.
Proof.
  intros Hinv pk item.
  destruct (place_order_outcome sid data now w)
    as [_ | pk' _ _ _ | pk' item0 _ _ Hget0 Ha0 Hq0]; cbn [snd];
    try apply Hinv.
  destruct (Z.eq_dec pk pk') as [-> | Hne].
  - destruct (ordered_item w now sid item0 _ pk' Hget0 Ha0 Hq0)
      as (item' & H1 & _ & H3).
    rewrite H1. intros [= <-]. exact H3.
  - rewrite ordered_other; [apply Hinv |].
    rewrite (query_get_id _ _ _ Hget0). exact Hne.
Qed.

(** X5.  If the flag of every item agrees with its quantity, it still
    does after any number of calls. *)
Theorem serve_keeps_flags calls w :
  (forall pk item,
     query_get (canteen_item (db w)) pk = Some item -> flag_agrees item) ->
  forall pk item,
    query_get (canteen_item (db (snd (serve calls w)))) pk = Some item ->
    flag_agrees item.
Proof.
  apply (serve_related
           (fun w w' =>
              (forall pk item,
                 query_get (canteen_item (db w)) pk = Some item -> flag_agrees item) ->
              forall pk item,
                query_get (canteen_item (db w')) pk = Some item -> flag_agrees item)).
  - intros w0 H. exact H.
  - intros w1 w2 w3 H12 H23 H. apply H23, H12, H.
  - intros now sid data w0. apply place_order_keeps_flags.
Qed.

Lemma serve_keeps_flags_witness :
  flag_agrees (CanteenItem.mk 1 "samosa" 12.5%float true 2 200).
Proof.
  apply (serve_keeps_flags [(200, 7, order_of_3); (201, 8, order_of_3)] sample_world)
    with (pk := 1).
  - intros pk item H. apply find_some in H.
    destruct H as [[<- | [<- | []]] _]; reflexivity.
  - reflexivity.
Defined.

Lemma place_order_ledger_matches_stock now sid data w pk item :
  query_get (canteen_item (db w)) pk = Some item ->
  exists item',
    query_get (canteen_item (db (snd (run (place_order sid data) now w)))) pk
    = Some item'
    /\ ordered_quantity pk (canteen_order (db (snd (run (place_order sid data) now w))))
       = ordered_quantity pk (canteen_order (db w))
         + (CanteenItem.quantity item - CanteenItem.quantity item')
    /\ (0 <= CanteenItem.quantity item -> 0 <= CanteenItem.quantity item').
Proof.
  intros Hget.
  destruct (place_order_outcome sid data now w)
    as [_ | pk' _ _ _ | pk' item0 _ _ Hget0 Ha0 Hq0]; cbn [snd].
  - exists item. repeat split; auto. lia.
  - exists item. repeat split; auto. lia.
  - pose proof (query_get_id _ _ _ Hget0) as Hid0.
    destruct (Z.eq_dec pk pk') as [-> | Hne].
    + assert (item0 = item) by congruence. subst item0.
      destruct (ordered_item w now sid item _ pk' Hget Ha0 Hq0)
        as (item' & H1 & H2 & _).
      exists item'. split; [exact H1 |]. split; [| lia].
      unfold ordered. cbn [db canteen_order]. rewrite ordered_quantity_app. cbn.
      rewrite Hid0, Z.eqb_refl. lia.
    + exists item. split; [| split; [| auto]].
      * rewrite ordered_other; [exact Hget | congruence].
      * unfold ordered. cbn [db canteen_order]. rewrite ordered_quantity_app. cbn.
        rewrite Hid0. destruct (Z.eqb_spec pk' pk); [congruence | lia].
Qed.

(** X6.  After any number of calls, what the ledger has gained for an
    item is what the item has lost; an item that did not start below zero
    does not end below zero. *)
Theorem serve_ledger_matches_stock calls w pk item :
  query_get (canteen_item (db w)) pk = Some item ->
  exists item',
    query_get (canteen_item (db (snd (serve calls w)))) pk = Some item'
    /\ ordered_quantity pk (canteen_order (db (snd (serve calls w))))
       = ordered_quantity pk (canteen_order (db w))
         + (CanteenItem.quantity item - CanteenItem.quantity item')
    /\ (0 <= CanteenItem.quantity item -> 0 <= CanteenItem.quantity item').
Proof.
  revert item.
  apply (serve_related
           (fun w w' =>
              forall item,
                query_get (canteen_item (db w)) pk = Some item ->
                exists item',
                  query_get (canteen_item (db w')) pk = Some item'
                  /\ ordered_quantity pk (canteen_order (db w'))
                     = ordered_quantity pk (canteen_order (db w))
                       + (CanteenItem.quantity item - CanteenItem.quantity item')
                  /\ (0 <= CanteenItem.quantity item -> 0 <= CanteenItem.quantity item'))).
  - intros w0 item H. exists item. repeat split; auto. lia.
  - intros w1 w2 w3 H12 H23 item H.
    destruct (H12 item H) as (item2 & G1 & G2 & G3).
    destruct (H23 item2 G1) as (item3 & K1 & K2 & K3).
    exists item3. repeat split; auto. lia.
  - intros now sid data w0 item H. apply place_order_ledger_matches_stock, H.
Qed.

Lemma serve_ledger_matches_stock_witness :
  exists item',
    query_get
      (canteen_item
         (db (snd (serve [(200, 7, order_of_3); (201, 8, order_of_3)] sample_world)))) 1
    = Some item'
    /\ ordered_quantity 1
         (canteen_order
            (db (snd (serve [(200, 7, order_of_3); (201, 8, order_of_3)] sample_world))))
       = ordered_quantity 1 (canteen_order (db sample_world))
         + (CanteenItem.quantity samosa - CanteenItem.quantity item')
    /\ (0 <= CanteenItem.quantity samosa -> 0 <= CanteenItem.quantity item').
Proof.
  apply (serve_ledger_matches_stock
           [(200, 7, order_of_3); (201, 8, order_of_3)] sample_world 1 samosa).
  reflexivity.
Defined.

Lemma place_order_appends now sid data w :
  exists new,
    canteen_order (db (snd (run (place_order sid data) now w)))
    = canteen_order (db w) ++ new
    /\ (NoDup (map CanteenOrder.id (canteen_order (db w))) ->
        NoDup (map CanteenOrder.id (canteen_order (db w) ++ new))).
Proof.
  destruct (place_order_outcome sid data now w)
    as [_ | pk' _ _ _ | pk' item0 _ _ _ _ _]; cbn [snd].
  - exists []. rewrite app_nil_r. auto.
  - exists []. rewrite app_nil_r. auto.
  - eexists. split; [reflexivity |].
    intros Hnd. rewrite map_app. cbn.
    apply NoDup_app; [exact Hnd | repeat constructor; cbn; tauto |].
    intros i Hin [<- | []].
    pose proof (next_id_fresh _ _ Hin). lia.
Qed.

(** X7.  The ledger only grows: after any number of calls it is the old
    ledger followed by the new orders, and if the ids of the old orders
    were all different, so are the ids of all of them. *)
Theorem serve_appends_fresh_orders calls w :
  exists new,
    canteen_order (db (snd (serve calls w))) = canteen_order (db w) ++ new
    /\ (NoDup (map CanteenOrder.id (canteen_order (db w))) ->
        NoDup (map CanteenOrder.id (canteen_order (db (snd (serve calls w)))))).
Proof.
  apply (serve_related
           (fun w w' =>
              exists new,
                canteen_order (db w') = canteen_order (db w) ++ new
                /\ (NoDup (map CanteenOrder.id (canteen_order (db w))) ->
                    NoDup (map CanteenOrder.id (canteen_order (db w')))))).
  - intros w0. exists []. rewrite app_nil_r. auto.
  - intros w1 w2 w3 (n12 & E12 & N12) (n23 & E23 & N23).
    exists (n12 ++ n23). split.
    + rewrite E23, E12, app_assoc. reflexivity.
    + intros H. apply N23, N12, H.
  - intros now sid data w0.
    destruct (place_order_appends now sid data w0) as (new & E & N).
    exists new. split; [exact E |]. rewrite E. exact N.
Qed.

(** X8.  After any number of calls, the orders added to the ledger and
    the broadcasts sent are each as many as the answers with status 201. *)
Theorem serve_counts_agree calls :
  forall w,
    let placed := List.length (filter (fun r => status r =? 201) (fst (serve calls w))) in
    List.length (canteen_order (db (snd (serve calls w))))
    = (List.length (canteen_order (db w)) + placed)%nat
    /\ List.length (broadcasts (trace (snd (serve calls w))))
       = (List.length (broadcasts (trace w)) + placed)%nat.
Proof.
  induction calls as [| [[now sid] data] rest IH]; intros w.
  - cbn. lia.
  - rewrite serve_cons. cbn [fst snd filter].
    specialize (IH (snd (run (place_order sid data) now w))). cbn zeta in IH.
    destruct IH as [IH1 IH2].
    destruct (place_order_outcome sid data now w)
      as [_ | pk' _ _ _ | pk' item0 _ _ _ _ _]; cbn [fst snd status] in *;
      cbn zeta.
    + change (400 =? 201) with false. cbn iota. split; assumption.
    + change (400 =? 201) with false. cbn iota. split; assumption.
    + change (201 =? 201) with true. cbn iota. cbn [List.length]. rewrite IH1, IH2.
      unfold ordered. cbn [db canteen_order trace].
      rewrite broadcasts_app, !List.length_app. cbn. lia.
Qed.

(** ** Orders and histories *)

Lemma run_order_history (isoformat : Z -> string) sid now w :
  run (order_history isoformat sid) now w
  = (mkResponse
       (JArr (map (fun o => order_summary isoformat o
                              (query_get (canteen_item (db w)) (CanteenOrder.item_id o)))
                  (orders_of (canteen_order (db w)) sid)))
       200,
     w).
Proof.
  unfold order_history. cbn. rewrite run_bind, run_summaries. reflexivity.
Qed.

Lemma flush_row_name loaded modified now row :
  CanteenItem.name (flush_row loaded modified now row) = CanteenItem.name row.
Proof.
  unfold flush_row. destruct (_ || _); reflexivity.
Qed.

(** A flush changes no id and no name, so no summary. *)
Lemma order_summary_flush (isoformat : Z -> string) o loaded modified now rows pk :
  order_summary isoformat o (query_get (flush_item loaded modified now rows) pk)
  = order_summary isoformat o (query_get rows pk).
Proof.
  destruct (Z.eq_dec pk (CanteenItem.id loaded)) as [E | E].
  - rewrite (query_get_flush_same _ _ _ _ _ E).
    destruct (query_get rows pk) as [row |]; [| reflexivity].
    unfold order_summary. cbn. rewrite flush_row_id, flush_row_name. reflexivity.
  - rewrite (query_get_flush_other _ _ _ _ _ E). reflexivity.
Qed.

(** X9.  An order that was placed is in the history of the caller from
    then on, with the id and the name of its item. *)
Theorem placed_order_in_history (isoformat : Z -> string) sid data now later w :
  status (fst (run (place_order sid data) now w)) = 201 ->
  let w' := snd (run (place_order sid data) now w) in
  exists o item',
    canteen_order (db w') = canteen_order (db w) ++ [o]
    /\ query_get (canteen_item (db w')) (CanteenOrder.item_id o) = Some item'
    /\ In (order_summary isoformat o (Some item'))
          (elements (body (fst (run (order_history isoformat sid) later w')))).
Proof.
  placed_only sid data now w pk item Hid Hget Ha Hq.
  pose proof (query_get_id _ _ _ Hget) as Hpk.
  destruct (ordered_item w now sid item _ pk Hget Ha Hq) as (item' & H1 & _ & _).
  set (qty := get_default (OrderRequest.quantity data) 1) in *.
  exists (new_order (canteen_order (db w)) sid (CanteenItem.id item) qty "placed" now),
    item'.
  split; [reflexivity |]. cbn [new_order CanteenOrder.item_id].
  rewrite Hpk. split; [exact H1 |].
  rewrite run_order_history. cbn [fst body elements].
  rewrite <- H1.
  apply (in_map (fun o => order_summary isoformat o
                            (query_get (canteen_item (db (ordered w now sid item qty)))
                                       (CanteenOrder.item_id o)))
           _ (new_order (canteen_order (db w)) sid pk qty "placed" now)).
  apply (Permutation_in _ (order_by_perm _)).
  apply filter_In. split.
  - unfold ordered. cbn [db canteen_order]. rewrite Hpk.
    apply in_or_app. right. left. reflexivity.
  - cbn. apply Z.eqb_refl.
Qed.

Lemma placed_order_in_history_witness :
  let w' := snd (run (place_order 7 order_of_3) 200 sample_world) in
  exists o item',
    canteen_order (db w') = canteen_order (db sample_world) ++ [o]
    /\ query_get (canteen_item (db w')) (CanteenOrder.item_id o) = Some item'
    /\ In (order_summary (fun _ => "T") o (Some item'))
          (elements (body (fst (run (order_history (fun _ => "T") 7) 300 w')))).
Proof.
  apply (placed_order_in_history (fun _ => "T") 7 order_of_3 200 300 sample_world).
  reflexivity.
Defined.

(** X10.  A call of one account changes the history of no other account,
    whatever the answer. *)
Theorem place_order_keeps_other_histories (isoformat : Z -> string)
    sid other data now later w :
  other <> sid ->
  fst (run (order_history isoformat other) later
         (snd (run (place_order sid data) now w)))
  = fst (run (order_history isoformat other) later w).
Proof.
  intros Hne.
  destruct (place_order_outcome sid data now w)
    as [_ | pk' _ _ _ | pk' item _ _ _ _ _]; cbn [snd]; try reflexivity.
  rewrite !run_order_history. cbn [fst].
  unfold ordered. cbn [db canteen_order canteen_item].
  unfold orders_of. rewrite filter_app. cbn [filter new_order CanteenOrder.student_id].
  destruct (Z.eqb_spec sid other) as [E | _]; [congruence |].
  rewrite app_nil_r. f_equal. f_equal.
  apply map_ext. intros o. apply order_summary_flush.
Qed.

Lemma place_order_keeps_other_histories_witness :
  fst (run (order_history (fun _ => "T") 8) 300
         (snd (run (place_order 7 order_of_3) 200 sample_world)))
  = fst (run (order_history (fun _ => "T") 8) 300 sample_world).
Proof.
  apply (place_order_keeps_other_histories (fun _ => "T") 7 8 order_of_3 200 300
           sample_world).
  lia.
Defined.

(** ** Two calls that overlap *)

Lemma flush_row_quantity loaded modified now row :
  CanteenItem.quantity (flush_row loaded modified now row)
  = if CanteenItem.quantity modified =? CanteenItem.quantity loaded
    then CanteenItem.quantity row
    else CanteenItem.quantity modified.
Proof.
  unfold flush_row.
  destruct (CanteenItem.quantity modified =? CanteenItem.quantity loaded);
    destruct (Bool.eqb (CanteenItem.available modified) (CanteenItem.available loaded));
    reflexivity.
Qed.



(** * The menu *)

Lemma query_get_app rows it pk :
  query_get (rows ++ [it]) pk
  = match query_get rows pk with
    | Some row => Some row
    | None => if CanteenItem.id it =? pk then Some it else None
    end.
Proof.
  unfold query_get. induction rows as [| row rows IH]; cbn; [reflexivity |].
  destruct (CanteenItem.id row =? pk); [reflexivity | exact IH].
Qed.

(** No row has the id the next row will get. *)
Lemma query_get_next_id rows :
  query_get rows (next_id (map CanteenItem.id rows)) = None.
Proof.
  destruct (query_get rows (next_id (map CanteenItem.id rows))) as [row |] eqn:H;
    [| reflexivity].
  apply find_some in H. destruct H as [Hin Heq].
  apply Z.eqb_eq in Heq.
  pose proof (next_id_fresh _ _ (in_map CanteenItem.id _ _ Hin)). lia.
Qed.

Lemma next_id_positive ids : Forall (fun i => 0 < i) ids -> 0 < next_id ids.
Proof.
  destruct ids as [| i ids]; cbn; [lia |].
  intros H. inversion H; subst. pose proof (fold_max_ge ids i). lia.
Qed.





(** ** Sorting *)

Lemma insert_by_perm {A : Type} (before : A -> A -> bool) x sorted :
  Permutation (x :: sorted) (insert_by before x sorted).
Proof.
  induction sorted as [| y rest IH]; cbn; [reflexivity |].
  destruct (before x y); [reflexivity |].
  rewrite perm_swap. apply perm_skip, IH.
Qed.

Lemma order_by_permutation {A : Type} (before : A -> A -> bool) rows :
  Permutation (order_by before rows) rows.
Proof.
  induction rows as [| x rows IH]; cbn; [reflexivity |].
  rewrite <- insert_by_perm. apply perm_skip, IH.
Qed.

Section Sorting.

Context {A : Type} (before : A -> A -> bool) (R : A -> A -> Prop).
Hypothesis before_R : forall x y, before x y = true -> R x y.
Hypothesis not_before_R : forall x y, before x y = false -> R y x.
Hypothesis R_trans : forall x y z, R x y -> R y z -> R x z.

Lemma insert_by_sorted x sorted :
  Sorted R sorted -> Sorted R (insert_by before x sorted).
Proof.
  induction 1 as [| y rest Hs IH Hhd]; cbn.
  - repeat constructor.
  - destruct (before x y) eqn:E.
    + constructor; [constructor; assumption |]. constructor. apply before_R, E.
    + constructor; [exact IH |].
      destruct rest as [| z rest]; cbn.
      * constructor. apply not_before_R, E.
      * destruct (before x z); constructor.
        -- apply not_before_R, E.
        -- inversion Hhd. assumption.
Qed.

Lemma order_by_sorted_by rows : StronglySorted R (order_by before rows).
Proof.
  apply Sorted_StronglySorted.
  - exact R_trans.
  - induction rows as [| x rows IH]; cbn; [constructor |].
    apply insert_by_sorted, IH.
Qed.

End Sorting.

(** ** The order of names *)

Lemma ascii_compare_lt_trans a b c :
  Ascii.compare a b = Lt -> Ascii.compare b c = Lt -> Ascii.compare a c = Lt.
Proof.
  unfold Ascii.compare. rewrite !N.compare_lt_iff. lia.
Qed.

Lemma string_compare_lt_trans s1 :
  forall s2 s3,
    String.compare s1 s2 = Lt -> String.compare s2 s3 = Lt ->
    String.compare s1 s3 = Lt.
Proof.
  induction s1 as [| a s1 IH]; intros [| b s2] [| c s3]; cbn; try congruence.
  destruct (Ascii.compare a b) eqn:Eab; try discriminate;
    destruct (Ascii.compare b c) eqn:Ebc; try discriminate.
  - apply Ascii.compare_eq_iff in Eab, Ebc. subst.
    replace (Ascii.compare c c) with Eq; [apply IH |].
    symmetry. unfold Ascii.compare. apply N.compare_refl.
  - apply Ascii.compare_eq_iff in Eab. subst. rewrite Ebc. reflexivity.
  - apply Ascii.compare_eq_iff in Ebc. subst. rewrite Eab. reflexivity.
  - rewrite (ascii_compare_lt_trans _ _ _ Eab Ebc). reflexivity.
Qed.

Lemma string_leb_trans s1 s2 s3 :
  String.leb s1 s2 = true -> String.leb s2 s3 = true -> String.leb s1 s3 = true.
Proof.
  unfold String.leb.
  destruct (String.compare s1 s2) eqn:E12; try discriminate;
    destruct (String.compare s2 s3) eqn:E23; try discriminate; intros _ _.
  - apply String.compare_eq_iff in E12. subst. rewrite E23. reflexivity.
  - apply String.compare_eq_iff in E12. subst. rewrite E23. reflexivity.
  - apply String.compare_eq_iff in E23. subst. rewrite E12. reflexivity.
  - rewrite (string_compare_lt_trans _ _ _ E12 E23). reflexivity.
Qed.

Lemma name_before_leb a b :
  name_before a b = true ->
  String.leb (CanteenItem.name a) (CanteenItem.name b) = true.
Proof.
  unfold name_before, String.ltb, String.leb.
  destruct (String.compare _ _); congruence.
Qed.

Lemma not_name_before_leb a b :
  name_before a b = false ->
  String.leb (CanteenItem.name b) (CanteenItem.name a) = true.
Proof.
  unfold name_before, String.ltb, String.leb.
  rewrite (String.compare_antisym (CanteenItem.name b) (CanteenItem.name a)).
  destruct (String.compare (CanteenItem.name a) (CanteenItem.name b));
    cbn; congruence.
Qed.

(** X14.  The menu lists every item once, in the order of their names;
    an entry shows the id, name, price, quantity and flag of its item. *)
Theorem get_menu_sorted_by_name w :
  exists items,
    Permutation items (canteen_item (db w))
    /\ StronglySorted
         (fun a b => String.leb (CanteenItem.name a) (CanteenItem.name b) = true)
         items
    /\ get_menu w = mkResponse (JArr (map menu_dict items)) 200.
Proof.
  exists (order_by name_before (canteen_item (db w))).
  split; [apply order_by_permutation |]. split; [| reflexivity].
  apply (order_by_sorted_by name_before).
  - apply name_before_leb.
  - apply not_name_before_leb.
  - intros x y z. apply string_leb_trans.
Qed.

(** X15.  After a call answered 201 the menu shows the item with the
    quantity and the flag it is now stored with. *)
Theorem menu_shows_placed_order sid data now w :
  status (fst (run (place_order sid data) now w)) = 201 ->
  let w' := snd (run (place_order sid data) now w) in
  exists pk item item',
    OrderRequest.item_id data = Some pk
    /\ query_get (canteen_item (db w)) pk = Some item
    /\ query_get (canteen_item (db w')) pk = Some item'
    /\ CanteenItem.quantity item'
       = CanteenItem.quantity item - get_default (OrderRequest.quantity data) 1
    /\ In (menu_dict item') (elements (body (get_menu w'))).
Proof.
  placed_only sid data now w pk item Hid Hget Ha Hq.
  destruct (ordered_item w now sid item _ pk Hget Ha Hq) as (item' & H1 & H2 & _).
  exists pk, item, item'. repeat split; auto.
  unfold get_menu. cbn [body elements]. apply in_map.
  apply (Permutation_in _ (Permutation_sym (order_by_permutation _ _))).
  apply find_some in H1. apply H1.
Qed.

Lemma menu_shows_placed_order_witness :
  let w' := snd (run (place_order 7 order_of_3) 200 sample_world) in
  exists pk item item',
    OrderRequest.item_id order_of_3 = Some pk
    /\ query_get (canteen_item (db sample_world)) pk = Some item
    /\ query_get (canteen_item (db w')) pk = Some item'
    /\ CanteenItem.quantity item'
       = CanteenItem.quantity item - get_default (OrderRequest.quantity order_of_3) 1
    /\ In (menu_dict item') (elements (body (get_menu w'))).
Proof.
  apply (menu_shows_placed_order 7 order_of_3 200 sample_world). reflexivity.
Defined.

Example sample_menu :
  map (fun v => dict_get (fields_of v) "name") (elements (body (get_menu sample_world)))
  = [Some (JStr "chai"); Some (JStr "samosa")].
Proof. reflexivity. Qed.

(** * Lost and found *)

(** ** allowed_file *)

Lemma after_last_dot_none s : after_last_dot s = None <-> has_dot s = false.
Proof.
  induction s as [| c rest IH]; cbn; [tauto |].
  destruct (after_last_dot rest) as [ext |].
  - split; [discriminate |]. intros H. apply orb_false_elim in H.
    destruct H as [_ H]. apply IH in H. discriminate.
  - destruct (is_dot c); cbn.
    + split; discriminate.
    + split; [intros _; apply IH; reflexivity | reflexivity].
Qed.

(** What follows the last dot: the name is a stem, a dot, and that text
    without a dot in it. *)
Lemma after_last_dot_some s ext :
  after_last_dot s = Some ext
  <-> exists stem, s = String.append stem (String "." ext) /\ has_dot ext = false.
Proof.
  split.
  - revert ext. induction s as [| c rest IH]; cbn; [discriminate |].
    intros ext. destruct (after_last_dot rest) as [e |] eqn:E.
    + intros [= ->]. destruct (IH ext eq_refl) as (stem & -> & Hno).
      exists (String c stem). split; [reflexivity | exact Hno].
    + destruct (is_dot c) eqn:D; [| discriminate].
      intros [= ->]. apply Ascii.eqb_eq in D. subst c.
      exists EmptyString. split; [reflexivity |]. apply after_last_dot_none, E.
  - intros (stem & -> & Hno). induction stem as [| c stem IH]; cbn.
    + apply after_last_dot_none in Hno. rewrite Hno. reflexivity.
    + cbn in IH. rewrite IH. reflexivity.
Qed.

(** X16.  A filename is allowed exactly when it is some stem, a dot, and
    an extension without a dot that in lower case is png, jpg, jpeg or
    gif: only what follows the last dot counts, and a name without a dot
    is never allowed. *)
Theorem allowed_file_iff filename :
  allowed_file filename = true
  <-> exists stem ext,
        filename = String.append stem (String "." ext)
        /\ has_dot ext = false
        /\ In (lower ext) ALLOWED.
Proof.
  unfold allowed_file. split.
  - intros H. apply andb_prop in H. destruct H as [_ H].
    destruct (after_last_dot filename) as [ext |] eqn:E; [| discriminate].
    apply after_last_dot_some in E. destruct E as (stem & -> & Hno).
    exists stem, ext. split; [reflexivity |]. split; [exact Hno |].
    apply existsb_exists in H. destruct H as (a & Hin & Heq).
    apply String.eqb_eq in Heq. subst a. exact Hin.
  - intros (stem & ext & -> & Hno & Hin).
    assert (E : after_last_dot (String.append stem (String "." ext)) = Some ext).
    { apply after_last_dot_some. exists stem. auto. }
    rewrite E. apply andb_true_intro. split.
    + destruct (has_dot (String.append stem (String "." ext))) eqn:D; [reflexivity |].
      apply after_last_dot_none in D. congruence.
    + apply existsb_exists. exists (lower ext). split; [exact Hin |].
      apply String.eqb_refl.
Qed.

Example allowed_file_samples :
  map allowed_file ["photo.png"; "photo.JPG"; "a.b.Jpeg"; ".gif";
                    "photo.png.exe"; "png"; "photo."; ""; "photo.pngx"]
  = [true; true; true; true; false; false; false; false; false].
Proof. reflexivity. Qed.

(** ** create_lost and list_lost *)

(** X17.  A lost item posted with a file whose name is not allowed is
    stored all the same, without image: the answer is 201, the item has no
    image filename, and nothing is added to the upload folder. *)
Theorem create_lost_drops_other_files
    (secure_filename : string -> string) (strftime : Z -> string)
    sid form now s ttl f :
  LostRequest.title form = Some ttl ->
  ttl <> "" ->
  LostRequest.image form = Some f ->
  allowed_file f = false ->
  exists li,
    create_lost secure_filename strftime sid form now s
    = (mkResponse (JObj [("msg", JStr "lost item created");
                         ("id", JInt (LostItem.id li))]) 201,
       mkSite (student s) (lost_item s ++ [li]) (event_notification s)
              (uploads s) (world s))
    /\ LostItem.image_filename li = None
    /\ LostItem.student_id li = sid
    /\ LostItem.title li = ttl.
Proof.
  intros Httl Hne Himg Hbad. unfold create_lost, save_image.
  rewrite Httl, Himg. cbn [not_str get_default].
  destruct (String.eqb_spec ttl "") as [E | _]; [contradiction |].
  rewrite Hbad, andb_false_r.
  destruct (negb (String.eqb f "")); eexists; repeat split.
Qed.

Lemma create_lost_drops_other_files_witness :
  exists li,
    create_lost (fun n => n) (fun _ => "T") 7
      (LostRequest.mk (Some "keys") None None (Some "keys.exe")) 200
      (mkSite [] [] [] [] sample_world)
    = (mkResponse (JObj [("msg", JStr "lost item created");
                         ("id", JInt (LostItem.id li))]) 201,
       mkSite [] ([] ++ [li]) [] [] sample_world)
    /\ LostItem.image_filename li = None
    /\ LostItem.student_id li = 7
    /\ LostItem.title li = "keys".
Proof.
  apply (create_lost_drops_other_files (fun n => n) (fun _ => "T") 7
           (LostRequest.mk (Some "keys") None None (Some "keys.exe")) 200
           (mkSite [] [] [] [] sample_world) "keys" "keys.exe").
  - reflexivity.
  - discriminate.
  - reflexivity.
  - reflexivity.
Defined.

Lemma allowed_file_not_empty f : allowed_file f = true -> f <> "".
Proof.
  intros H ->. discriminate.
Qed.

(** X18.  A lost item posted with an allowed file puts one file in the
    upload folder, named lost_, the timestamp, _ and the secured name; the
    item refers to that file, and the list of lost items shows the item
    with the url of that file. *)
Theorem create_lost_saves_image
    (secure_filename : string -> string) (strftime : Z -> string)
    (url_for : string -> string) (isoformat : Z -> string)
    sid form now s ttl f :
  LostRequest.title form = Some ttl ->
  ttl <> "" ->
  LostRequest.image form = Some f ->
  allowed_file f = true ->
  let saved :=
    String.append "lost"
      (String.append "_" (String.append (strftime now)
                            (String.append "_" (secure_filename f)))) in
  let s' := snd (create_lost secure_filename strftime sid form now s) in
  exists li,
    status (fst (create_lost secure_filename strftime sid form now s)) = 201
    /\ lost_item s' = lost_item s ++ [li]
    /\ uploads s' = uploads s ++ [saved]
    /\ LostItem.image_filename li = Some saved
    /\ In (lost_dict url_for isoformat li)
          (elements (body (list_lost url_for isoformat s')))
    /\ dict_get (fields_of (lost_dict url_for isoformat li)) "image_url"
       = Some (JStr (url_for saved)).
Proof.
  intros Httl Hne Himg Hok saved s'. subst s' saved.
  pose proof (allowed_file_not_empty f Hok) as Hf.
  unfold create_lost, save_image.
  rewrite Httl, Himg. cbn [not_str get_default].
  destruct (String.eqb_spec ttl "") as [E | _]; [contradiction |].
  destruct (String.eqb_spec f "") as [E | _]; [contradiction |].
  rewrite Hok. cbn [negb andb fst snd status lost_item uploads].
  eexists. split; [reflexivity |]. split; [reflexivity |]. split; [reflexivity |].
  split; [reflexivity |]. split; [| reflexivity].
  unfold list_lost. cbn [body elements lost_item]. apply in_map.
  apply (Permutation_in _ (Permutation_sym (order_by_permutation _ _))).
  apply in_or_app. right. left. reflexivity.
Qed.

Lemma create_lost_saves_image_witness :
  let form := LostRequest.mk (Some "keys") None (Some "gate 2") (Some "keys.PNG") in
  let s := mkSite [] [] [] [] sample_world in
  let saved :=
    String.append "lost"
      (String.append "_" (String.append "T" (String.append "_" "keys.PNG"))) in
  let s' := snd (create_lost (fun n => n) (fun _ => "T") 7 form 200 s) in
  exists li,
    status (fst (create_lost (fun n => n) (fun _ => "T") 7 form 200 s)) = 201
    /\ lost_item s' = lost_item s ++ [li]
    /\ uploads s' = uploads s ++ [saved]
    /\ LostItem.image_filename li = Some saved
    /\ In (lost_dict (fun n => n) (fun _ => "T") li)
          (elements (body (list_lost (fun n => n) (fun _ => "T") s')))
    /\ dict_get (fields_of (lost_dict (fun n => n) (fun _ => "T") li)) "image_url"
       = Some (JStr saved).
Proof.
  apply (create_lost_saves_image (fun n => n) (fun _ => "T") (fun n => n) (fun _ => "T")
           7 (LostRequest.mk (Some "keys") None (Some "gate 2") (Some "keys.PNG")) 200
           (mkSite [] [] [] [] sample_world) "keys" "keys.PNG").
  - reflexivity.
  - discriminate.
  - reflexivity.
  - reflexivity.
Defined.

(** X19.  The list of lost items has every item once, newest first; an
    item without image filename is listed with a null image url. *)
Theorem list_lost_newest_first
    (url_for : string -> string) (isoformat : Z -> string) s :
  exists items,
    Permutation items (lost_item s)
    /\ StronglySorted
         (fun a b => LostItem.created_at b <= LostItem.created_at a) items
    /\ list_lost url_for isoformat s
       = mkResponse (JArr (map (lost_dict url_for isoformat) items)) 200
    /\ forall it,
         LostItem.image_filename it = None ->
         dict_get (fields_of (lost_dict url_for isoformat it)) "image_url" = Some JNull.
Proof.
  exists (order_by newer_lost (lost_item s)).
  split; [apply order_by_permutation |]. split; [| split; [reflexivity |]].
  - apply (order_by_sorted_by newer_lost); unfold newer_lost.
    + intros x y H. apply Z.ltb_lt in H. lia.
    + intros x y H. apply Z.ltb_ge in H. lia.
    + intros x y z. lia.
  - intros it H. unfold lost_dict. rewrite H. reflexivity.
Qed.

(** * Events *)

Lemma filter_permutation {A : Type} (f : A -> bool) l1 l2 :
  Permutation l1 l2 -> Permutation (filter f l1) (filter f l2).
Proof.
  induction 1 as [| x l1 l2 _ IH | x y l | l1 l2 l3 _ IH12 _ IH23]; cbn.
  - constructor.
  - destruct (f x); [apply perm_skip |]; exact IH.
  - destruct (f x), (f y); try reflexivity. apply perm_swap.
  - etransitivity; eassumption.
Qed.

Lemma filter_strongly_sorted {A : Type} (R : A -> A -> Prop) (f : A -> bool) l :
  StronglySorted R l -> StronglySorted R (filter f l).
Proof.
  induction 1 as [| x l Hs IH Hall]; cbn; [constructor |].
  destruct (f x); [| exact IH].
  constructor; [exact IH |].
  apply Forall_forall. intros y Hy. apply filter_In in Hy.
  rewrite Forall_forall in Hall. apply Hall, Hy.
Qed.

Lemma newer_event_sorted rows :
  StronglySorted
    (fun a b => EventNotification.created_at b <= EventNotification.created_at a)
    (order_by newer_event rows).
Proof.
  apply (order_by_sorted_by newer_event); unfold newer_event.
  - intros x y H. apply Z.ltb_lt in H. lia.
  - intros x y H. apply Z.ltb_ge in H. lia.
  - intros x y z. lia.
Qed.

(** X20.  The list of events, newest first, has every event once when
    no department or an empty one is asked for; asked for a department, it
    has exactly the events of that department, and none that has no
    department. *)
Theorem list_events_by_department (isoformat : Z -> string) dept s :
  exists events,
    Permutation events
      (match dept with
       | None => event_notification s
       | Some d =>
           if String.eqb d "" then event_notification s
           else filter (fun e => match EventNotification.department e with
                                 | Some d' => String.eqb d' d
                                 | None => false
                                 end)
                       (event_notification s)
       end)
    /\ StronglySorted
         (fun a b => EventNotification.created_at b <= EventNotification.created_at a)
         events
    /\ list_events isoformat dept s
       = mkResponse (JArr (map (event_dict isoformat) events)) 200.
Proof.
  unfold list_events.
  destruct dept as [d |]; cbn [not_str get_default].
  - destruct (String.eqb d "").
    + exists (order_by newer_event (event_notification s)).
      split; [apply order_by_permutation |].
      split; [apply newer_event_sorted | reflexivity].
    + exists (filter (in_department d) (order_by newer_event (event_notification s))).
      split; [apply filter_permutation, order_by_permutation |].
      split; [apply filter_strongly_sorted, newer_event_sorted | reflexivity].
  - exists (order_by newer_event (event_notification s)).
    split; [apply order_by_permutation |].
    split; [apply newer_event_sorted | reflexivity].
Qed.

(** X21.  An event whose time does not parse is created all the same,
    without time: the answer is 201, the event as stored has no event
    time, one broadcast goes out, and the list shows it with a null
    event time. *)
Theorem create_event_swallows_bad_time
    (fromisoformat : string -> option Z) (isoformat : Z -> string)
    data now s ttl t :
  EventRequest.title data = Some ttl ->
  ttl <> "" ->
  EventRequest.event_time data = Some t ->
  fromisoformat t = None ->
  let s' := snd (create_event fromisoformat data now s) in
  exists ev,
    status (fst (create_event fromisoformat data now s)) = 201
    /\ event_notification s' = event_notification s ++ [ev]
    /\ EventNotification.title ev = ttl
    /\ EventNotification.event_time ev = None
    /\ broadcasts (trace (world s'))
       = broadcasts (trace (world s))
         ++ [("event_created",
              JObj [("id", JInt (EventNotification.id ev));
                    ("title", JStr ttl);
                    ("department", opt_str (EventRequest.department data))])]
    /\ In (event_dict isoformat ev)
          (elements (body (list_events isoformat None s')))
    /\ dict_get (fields_of (event_dict isoformat ev)) "event_time" = Some JNull.
Proof.
  intros Httl Hne Htime Hbad s'. subst s'. unfold create_event.
  rewrite Httl, Htime. cbn [not_str get_default].
  destruct (String.eqb_spec ttl "") as [E | _]; [contradiction |].
  rewrite Hbad. replace (if negb (String.eqb t "") then None else None)
    with (@None Z) by (destruct (String.eqb t ""); reflexivity).
  cbn [fst snd status event_notification world trace].
  eexists. split; [reflexivity |]. split; [reflexivity |]. split; [reflexivity |].
  split; [reflexivity |]. split; [| split; [| reflexivity]].
  - rewrite broadcasts_app. reflexivity.
  - unfold list_events. cbn [not_str negb body elements event_notification].
    apply in_map.
    apply (Permutation_in _ (Permutation_sym (order_by_permutation _ _))).
    apply in_or_app. right. left. reflexivity.
Qed.

Lemma create_event_swallows_bad_time_witness :
  let data := EventRequest.mk (Some "fest") None (Some "CSE") (Some "tomorrow") in
  let s := mkSite [] [] [] [] sample_world in
  let s' := snd (create_event (fun _ => None) data 200 s) in
  exists ev,
    status (fst (create_event (fun _ => None) data 200 s)) = 201
    /\ event_notification s' = event_notification s ++ [ev]
    /\ EventNotification.title ev = "fest"
    /\ EventNotification.event_time ev = None
    /\ broadcasts (trace (world s'))
       = broadcasts (trace (world s))
         ++ [("event_created",
              JObj [("id", JInt (EventNotification.id ev));
                    ("title", JStr "fest");
                    ("department", opt_str (EventRequest.department data))])]
    /\ In (event_dict (fun _ => "T") ev)
          (elements (body (list_events (fun _ => "T") None s')))
    /\ dict_get (fields_of (event_dict (fun _ => "T") ev)) "event_time" = Some JNull.
Proof.
  apply (create_event_swallows_bad_time (fun _ => None) (fun _ => "T")
           (EventRequest.mk (Some "fest") None (Some "CSE") (Some "tomorrow")) 200
           (mkSite [] [] [] [] sample_world) "fest" "tomorrow").
  - reflexivity.
  - discriminate.
  - reflexivity.
  - reflexivity.
Defined.

Lemma insert_event_filter (f : EventNotification.t -> bool) x l :
  StronglySorted
    (fun a b => EventNotification.created_at b <= EventNotification.created_at a) l ->
  filter f (insert_by newer_event x l)
  = if f x then insert_by newer_event x (filter f l) else filter f l.
Proof.
  induction 1 as [| y rest Hs IH Hall]; cbn.
  - destruct (f x); reflexivity.
  - destruct (newer_event x y) eqn:B.
    + cbn [filter]. destruct (f x) eqn:Fx; [| reflexivity].
      destruct (f y) eqn:Fy.
      * cbn. rewrite B. reflexivity.
      * destruct (filter f rest) as [| z tail] eqn:Frest; [reflexivity |].
        cbn. assert (Hz : In z (filter f rest)) by (rewrite Frest; left; reflexivity).
        apply filter_In in Hz. destruct Hz as [Hz _].
        rewrite Forall_forall in Hall. specialize (Hall z Hz).
        unfold newer_event in *. apply Z.ltb_lt in B.
        destruct (Z.ltb_spec (EventNotification.created_at z)
                    (EventNotification.created_at x)); [reflexivity | lia].
    + cbn [filter]. rewrite IH.
      destruct (f y) eqn:Fy; destruct (f x) eqn:Fx; cbn; rewrite ?B; reflexivity.
Qed.

(** Asking for a department before or after the sort is the same. *)
Lemma filter_order_by_event (f : EventNotification.t -> bool) rows :
  filter f (order_by newer_event rows) = order_by newer_event (filter f rows).
Proof.
  induction rows as [| x rows IH]; [reflexivity |].
  change (order_by newer_event (x :: rows))
    with (insert_by newer_event x (order_by newer_event rows)).
  rewrite (insert_event_filter f x _ (newer_event_sorted rows)), IH.
  cbn [filter]. destruct (f x); reflexivity.
Qed.

(** X22.  An event created with a department is listed from then on
    under that department, and the list of every other department is as
    it was. *)
Theorem created_event_listed_under_department
    (fromisoformat : string -> option Z) (isoformat : Z -> string)
    data now s ttl d :
  EventRequest.title data = Some ttl ->
  ttl <> "" ->
  EventRequest.department data = Some d ->
  d <> "" ->
  let s' := snd (create_event fromisoformat data now s) in
  exists ev,
    event_notification s' = event_notification s ++ [ev]
    /\ In (event_dict isoformat ev)
          (elements (body (list_events isoformat (Some d) s')))
    /\ forall other,
         other <> d -> other <> "" ->
         list_events isoformat (Some other) s' = list_events isoformat (Some other) s.
Proof.
  intros Httl Hne Hdept Hd s'. subst s'. unfold create_event.
  rewrite Httl, Hdept. cbn [not_str get_default].
  destruct (String.eqb_spec ttl "") as [E | _]; [contradiction |].
  cbn [snd event_notification].
  eexists. split; [reflexivity |]. split.
  - unfold list_events. cbn [not_str get_default event_notification].
    destruct (String.eqb_spec d "") as [E | _]; [contradiction |].
    cbn [negb body elements]. apply in_map. apply filter_In. split.
    + apply (Permutation_in _ (Permutation_sym (order_by_permutation _ _))).
      apply in_or_app. right. left. reflexivity.
    + unfold in_department. cbn. apply String.eqb_refl.
  - intros other Hother Hnon. unfold list_events.
    cbn [not_str get_default event_notification].
    destruct (String.eqb_spec other "") as [E | _]; [contradiction |].
    cbn [negb]. rewrite !filter_order_by_event, filter_app.
    cbn [filter in_department EventNotification.department].
    destruct (String.eqb_spec d other) as [E | _]; [congruence |].
    rewrite app_nil_r. reflexivity.
Qed.

Lemma created_event_listed_under_department_witness :
  let data := EventRequest.mk (Some "fest") None (Some "CSE") None in
  let s := mkSite [] [] [] [] sample_world in
  let s' := snd (create_event (fun _ => None) data 200 s) in
  exists ev,
    event_notification s' = event_notification s ++ [ev]
    /\ In (event_dict (fun _ => "T") ev)
          (elements (body (list_events (fun _ => "T") (Some "CSE") s')))
    /\ forall other,
         other <> "CSE" -> other <> "" ->
         list_events (fun _ => "T") (Some other) s'
         = list_events (fun _ => "T") (Some other) s.
Proof.
  apply (created_event_listed_under_department (fun _ => None) (fun _ => "T")
           (EventRequest.mk (Some "fest") None (Some "CSE") None) 200
           (mkSite [] [] [] [] sample_world) "fest" "CSE").
  - reflexivity.
  - discriminate.
  - reflexivity.
  - discriminate.
Defined.

(** * Accounts *)

Lemma student_by_email_app rows st e :
  student_by_email (rows ++ [st]) e
  = match student_by_email rows e with
    | Some found => Some found
    | None => if String.eqb (Student.email st) e then Some st else None
    end.
Proof.
  unfold student_by_email. induction rows as [| row rows IH]; cbn; [reflexivity |].
  destruct (String.eqb (Student.email row) e); [reflexivity | exact IH].
Qed.

Lemma student_by_email_in rows e st :
  student_by_email rows e = Some st -> In st rows /\ Student.email st = e.
Proof.
  unfold student_by_email. intros H. apply find_some in H.
  destruct H as [Hin Heq]. apply String.eqb_eq in Heq. auto.
Qed.

Lemma student_by_email_none rows e :
  student_by_email rows e = None -> ~ In e (map Student.email rows).
Proof.
  unfold student_by_email. intros H Hin. apply in_map_iff in Hin.
  destruct Hin as (st & <- & Hin).
  pose proof (find_none _ _ H st Hin) as Hf. cbn in Hf.
  rewrite String.eqb_refl in Hf. discriminate.
Qed.

(** With one student per email, looking an email up finds its student. *)
Lemma student_by_email_unique rows st :
  NoDup (map Student.email rows) ->
  In st rows ->
  student_by_email rows (Student.email st) = Some st.
Proof.
  unfold student_by_email.
  induction rows as [| row rows IH]; cbn; [tauto |].
  intros Hnd [-> | Hin].
  - rewrite String.eqb_refl. reflexivity.
  - inversion Hnd as [| ? ? Hnot Hnd']; subst.
    destruct (String.eqb_spec (Student.email row) (Student.email st)) as [E | _].
    + exfalso. apply Hnot. rewrite E. apply in_map, Hin.
    + apply IH; assumption.
Qed.

(** A registration is answered 201 exactly when the three fields are
    there and the email is new. *)
Lemma register_201 data now s :
  status (fst (register data now s)) = 201 ->
  exists e n p,
    RegisterRequest.email data = Some e /\ e <> ""
    /\ RegisterRequest.name data = Some n /\ n <> ""
    /\ RegisterRequest.password data = Some p /\ p <> ""
    /\ student_by_email (student s) e = None
    /\ register data now s
       = (mkResponse
            (JObj [("msg", JStr "registered");
                   ("student",
                    student_to_dict
                      (Student.mk (next_id (map Student.id (student s))) e n p
                         (RegisterRequest.department data) now))]) 201,
          mkSite
            (student s
             ++ [Student.mk (next_id (map Student.id (student s))) e n p
                   (RegisterRequest.department data) now])
            (lost_item s) (event_notification s) (uploads s) (world s)).
Proof.
  unfold register.
  destruct (RegisterRequest.email data) as [e |]; [| discriminate].
  destruct (RegisterRequest.password data) as [p |];
    [| cbn; rewrite orb_true_r; discriminate].
  destruct (RegisterRequest.name data) as [n |];
    [| cbn; rewrite !orb_true_r; discriminate].
  cbn [not_str get_default].
  destruct (String.eqb_spec e ""); [discriminate |].
  destruct (String.eqb_spec p ""); [discriminate |].
  destruct (String.eqb_spec n ""); [discriminate |].
  cbn [orb].
  destruct (student_by_email (student s) e) eqn:F; [discriminate |].
  intros _. exists e, n, p. repeat split; auto.
Qed.

(** X23.  After a registration answered 201, a login with the same
    email and password is answered 200 with a token for the id of the new
    student and the same student data; a login with that email and any
    other password is not. *)
Theorem register_then_login (create_access_token : Z -> Z -> string)
    data now later s e p :
  RegisterRequest.email data = Some e ->
  RegisterRequest.password data = Some p ->
  status (fst (register data now s)) = 201 ->
  let s' := snd (register data now s) in
  exists st,
    student s' = student s ++ [st]
    /\ dict_get (fields_of (body (fst (register data now s)))) "student"
       = Some (student_to_dict st)
    /\ login create_access_token (LoginRequest.mk (Some e) (Some p)) later s'
       = mkResponse
           (JObj [("access_token", JStr (create_access_token (Student.id st) later));
                  ("student", student_to_dict st)]) 200
    /\ forall p',
         p' <> p ->
         status (login create_access_token (LoginRequest.mk (Some e) (Some p')) later s')
         <> 200.
Proof.
  intros He Hp H201 s'. subst s'.
  destruct (register_201 data now s H201)
    as (e0 & n & p0 & He0 & Hne & _ & _ & Hp0 & Hnp & Hnew & ->).
  rewrite He in He0. injection He0 as <-. rewrite Hp in Hp0. injection Hp0 as <-.
  eexists. cbn [fst snd student body fields_of].
  split; [reflexivity |]. split; [reflexivity |].
  unfold login.
  cbn [LoginRequest.email LoginRequest.password not_str get_default student].
  destruct (String.eqb_spec e ""); [contradiction |].
  rewrite student_by_email_app, Hnew. cbn [Student.email].
  rewrite String.eqb_refl. cbn [Student.password Student.id orb].
  split.
  - destruct (String.eqb_spec p ""); [contradiction |].
    rewrite String.eqb_refl. reflexivity.
  - intros p' Hp'. destruct (String.eqb p' ""); [cbn; discriminate |].
    cbn [orb]. destruct (String.eqb_spec p p'); [congruence |]. cbn. discriminate.
Qed.

Lemma register_then_login_witness :
  let data := RegisterRequest.mk (Some "a@x.in") (Some "Asha") (Some "pw") None in
  let s := mkSite [] [] [] [] sample_world in
  let s' := snd (register data 200 s) in
  exists st,
    student s' = student s ++ [st]
    /\ dict_get (fields_of (body (fst (register data 200 s)))) "student"
       = Some (student_to_dict st)
    /\ login (fun _ _ => "token") (LoginRequest.mk (Some "a@x.in") (Some "pw")) 300 s'
       = mkResponse
           (JObj [("access_token", JStr ((fun _ _ => "token") (Student.id st) 300));
                  ("student", student_to_dict st)]) 200
    /\ forall p',
         p' <> "pw" ->
         status (login (fun _ _ => "token")
                   (LoginRequest.mk (Some "a@x.in") (Some p')) 300 s')
         <> 200.
Proof.
  apply (register_then_login (fun _ _ => "token")
           (RegisterRequest.mk (Some "a@x.in") (Some "Asha") (Some "pw") None)
           200 300 (mkSite [] [] [] [] sample_world) "a@x.in" "pw"); reflexivity.
Defined.



(** X25.  Registration keeps one student per email and one per id: if
    the emails of the students are all different before, they are after,
    and so for the ids. *)
Theorem register_keeps_emails_unique data now s :
  NoDup (map Student.email (student s)) ->
  NoDup (map Student.id (student s)) ->
  NoDup (map Student.email (student (snd (register data now s))))
  /\ NoDup (map Student.id (student (snd (register data now s)))).
Proof.
  intros He Hi. unfold register.
  destruct (_ || _); [cbn; auto |].
  destruct (student_by_email (student s) _) eqn:F; [cbn; auto |].
  cbn [snd student]. rewrite !map_app. cbn [map Student.email Student.id].
  split.
  - apply NoDup_app; [exact He | repeat constructor; cbn; tauto |].
    intros a Hin [<- | []]. exact (student_by_email_none _ _ F Hin).
  - apply NoDup_app; [exact Hi | repeat constructor; cbn; tauto |].
    intros a Hin [<- | []]. pose proof (next_id_fresh _ _ Hin). lia.
Qed.

Lemma register_keeps_emails_unique_witness :
  let data := RegisterRequest.mk (Some "a@x.in") (Some "Asha") (Some "pw") None in
  let s := mkSite [] [] [] [] sample_world in
  NoDup (map Student.email (student (snd (register data 200 s))))
  /\ NoDup (map Student.id (student (snd (register data 200 s)))).
Proof.
  apply (register_keeps_emails_unique
           (RegisterRequest.mk (Some "a@x.in") (Some "Asha") (Some "pw") None) 200
           (mkSite [] [] [] [] sample_world)); constructor.
Defined.

(** X26.  With one student per email, a login is answered 200 exactly
    when email and password are not empty and some student has both. *)
Theorem login_200_iff (create_access_token : Z -> Z -> string) e p now s :
  NoDup (map Student.email (student s)) ->
  status (login create_access_token (LoginRequest.mk (Some e) (Some p)) now s) = 200
  <-> e <> "" /\ p <> ""
      /\ exists st,
           In st (student s) /\ Student.email st = e /\ Student.password st = p.
Proof.
  intros Hnd. unfold login.
  cbn [LoginRequest.email LoginRequest.password not_str get_default].
  destruct (String.eqb_spec e "") as [-> | He].
  { cbn. split; [discriminate | intros [H _]; contradiction]. }
  destruct (String.eqb_spec p "") as [-> | Hp].
  { cbn. split; [discriminate | intros (_ & H & _); contradiction]. }
  cbn [orb]. split.
  - destruct (student_by_email (student s) e) as [st |] eqn:F; [| discriminate].
    destruct (String.eqb_spec (Student.password st) p) as [E | _]; [| discriminate].
    intros _. apply student_by_email_in in F. destruct F as [Hin Hem].
    split; [exact He |]. split; [exact Hp |]. exists st. auto.
  - intros (_ & _ & st & Hin & <- & <-).
    rewrite (student_by_email_unique _ _ Hnd Hin), String.eqb_refl. reflexivity.
Qed.

Lemma login_200_iff_witness :
  let s := mkSite [Student.mk 1 "a@x.in" "Asha" "pw" None 100] [] [] [] sample_world in
  status (login (fun _ _ => "token") (LoginRequest.mk (Some "a@x.in") (Some "pw")) 200 s)
  = 200
  <-> "a@x.in" <> "" /\ "pw" <> ""
      /\ exists st,
           In st (student s) /\ Student.email st = "a@x.in" /\ Student.password st = "pw".
Proof.
  apply (login_200_iff (fun _ _ => "token") "a@x.in" "pw" 200
           (mkSite [Student.mk 1 "a@x.in" "Asha" "pw" None 100] [] [] [] sample_world)).
  repeat constructor. cbn. tauto.
Defined.

(** * Reset *)

